(** * Dynamic compound-type introspection and record decoding (dynamic.go)

    A shallow embedding of [dynamic.go] of the go-hdf5 binding: the
    dynamically typed datatype handle [DynDatatype], the packet-table
    reader [TableReader], the one-shot [ReadPacketBytes], the primitive
    decoders and the record decoder [Unpacker].

    Conventions.
    - Go [int], [int64] and [uintptr] are 64 bits wide (the amd64 target of
      the cgo build); they are integers of [Z] with the wrap-around written
      out ([wrap_int], [to_uintptr]).  C [int], [herr_t] and [unsigned] are
      32 bits wide, [size_t] and [hsize_t] 64 bits.
    - The HDF5 library is outside the repository.  Its read-only type
      queries are an oracle ([H5T]); its stateful calls (packet tables,
      [malloc]/[free], [H5Tclose]) act on an abstract engine state and every
      such call is recorded in a trace of [event]s.
    - Package-level declarations that live in other files of the binding
      ([h5err], [T_COMPOUND], the native [Datatype] handles) are taken as
      parameters ([Package]). *)

From Stdlib Require Import ZArith Lia String.
From stdpp Require Import base list gmap strings.

Local Open Scope Z_scope.

(** ** Machine integers *)

Definition wrap_signed (bits z : Z) : Z :=
  (z + 2 ^ (bits - 1)) mod 2 ^ bits - 2 ^ (bits - 1).

Definition wrap_unsigned (bits z : Z) : Z := z mod 2 ^ bits.

(** Go [int] / [int64]. *)
Definition max_int : Z := 2 ^ 63 - 1.
Definition min_int : Z := - 2 ^ 63.
Definition wrap_int (z : Z) : Z := wrap_signed 64 z.
Definition int_mul (a b : Z) : Z := wrap_int (a * b).
Definition int_sub (a b : Z) : Z := wrap_int (a - b).
(** Go's integer division truncates toward zero. *)
Definition int_div (a b : Z) : Z := wrap_int (Z.quot a b).

(** Go [uintptr], C [size_t], C [hsize_t]. *)
Definition to_uintptr (z : Z) : Z := wrap_unsigned 64 z.
Definition to_size_t (z : Z) : Z := wrap_unsigned 64 z.
Definition to_hsize_t (z : Z) : Z := wrap_unsigned 64 z.
Definition uintptr_add (p k : Z) : Z := to_uintptr (p + k).

(** C [unsigned] and C [herr_t] (a C [int]). *)
Definition to_c_uint (z : Z) : Z := wrap_unsigned 32 z.
Definition to_herr_t (z : Z) : Z := wrap_signed 32 z.

(** ** Errors and results *)

(** [hdfdynamicerror] is the error of this file; [h5error] stands for the
    errors that [h5err] makes out of an engine status. *)
Inductive error : Type :=
  | hdfdynamicerror (code : Z)
  | h5error (code : Z).

Definition dynamic_error (code : Z) : error := hdfdynamicerror code.

(** A Go [(value, error)] result of which exactly one side is meaningful. *)
Inductive result (A : Type) : Type :=
  | Ok (a : A)
  | Err (e : error).
Arguments Ok {A} a.
Arguments Err {A} e.

(** A Go call either returns or panics (a failed [make], a slice bound). *)
Inductive outcome (A : Type) : Type :=
  | Returns (a : A)
  | Panics.
Arguments Returns {A} a.
Arguments Panics {A}.

(** ** Handles *)

Definition hid_t := Z.
Definition TypeClass := Z.

Record Location : Type := mkLocation { id : hid_t }.

Record Datatype : Type := mkDatatype { Datatype_Location : Location }.

Record Table : Type := mkTable { Table_Location : Location }.

Record DynDatatype : Type := mkDynDatatype {
  DynDatatype_Location : Location;
  class : TypeClass
}.

(** ** Raw memory, slices and dynamically typed values *)

(** What the decoders see through [unsafe.Pointer]: the byte stored at an
    address, and the NUL-terminated text that [C.GoString] copies from an
    address. *)
Record Memory : Type := mkMemory {
  byte_at : Z -> Z;
  GoString : Z -> string
}.

(** [reflect.SliceHeader]. *)
Record SliceHeader : Type := mkSliceHeader {
  Data : Z;
  Len : Z;
  Cap : Z
}.

Definition nil_slice : SliceHeader := mkSliceHeader 0 0 0.

Record DynPacket : Type := mkDynPacket { DynPacket_Data : SliceHeader }.

(** The values an [interface{}] holds here.  A [float32] is kept as its
    32-bit pattern. *)
Inductive iface : Type :=
  | iface_nil
  | iface_int32 (v : Z)
  | iface_int64 (v : Z)
  | iface_float32 (bits : Z)
  | iface_string (s : string).

(** Little-endian load of [n] bytes at address [p]. *)
Fixpoint load_le (m : Memory) (p : Z) (n : nat) : Z :=
  match n with
  | O => 0
  | S n' => byte_at m (to_uintptr p) mod 256 + 256 * load_le m (p + 1) n'
  end.

Definition load_int32 (m : Memory) (p : Z) : Z := wrap_signed 32 (load_le m p 4).
Definition load_int64 (m : Memory) (p : Z) : Z := wrap_signed 64 (load_le m p 8).
Definition load_float32 (m : Memory) (p : Z) : Z := load_le m p 4.
Definition load_uintptr (m : Memory) (p : Z) : Z := load_le m p 8.

(** ** Primitive decoders *)

Definition primitiveUnpack : Type := Memory -> Z -> iface * Z.

(** The C helper [_go_hdf5_sizeof_uintptr] returns the size of a C pointer. *)
Definition _go_hdf5_sizeof_uintptr : Z := 8.

Definition integerUnpacker : primitiveUnpack := fun m p =>
  let tmp := load_int32 m p in
  (iface_int32 tmp, uintptr_add p 8).

Definition longUnpacker : primitiveUnpack := fun m p =>
  let tmp := load_int64 m p in
  (iface_int64 tmp, uintptr_add p 8).

Definition floatUnpacker : primitiveUnpack := fun m p =>
  let tmp := load_float32 m p in
  (iface_float32 tmp, uintptr_add p 4).

Definition stringUnpacker : primitiveUnpack := fun m p =>
  let c_str := load_uintptr m p in
  let nextp := uintptr_add p (to_uintptr _go_hdf5_sizeof_uintptr) in
  if c_str =? 0 then (iface_string EmptyString, nextp)
  else (iface_string (GoString m c_str), nextp).

Record Unpacker : Type := mkUnpacker {
  unpackers : list (option primitiveUnpack)
}.

(** ** Declarations of the package outside dynamic.go *)

(** [h5err] turns an engine status into a Go error ([None] is Go's [nil]
    error); [T_COMPOUND] is the class tag of compound types; the four
    [Datatype] values are the native types the decoders are keyed on. *)
Record Package : Type := mkPackage {
  h5err : Z -> option error;
  T_COMPOUND : TypeClass;
  T_NATIVE_LLONG : Datatype;
  T_NATIVE_INT : Datatype;
  T_NATIVE_FLOAT : Datatype;
  T_GO_STRING : Datatype
}.

(** ** The engine's type queries *)

(** The read-only [H5T] calls, as functions of their arguments.
    [H5Tget_member_name] yields the C string it returns, [None] for a NULL
    pointer. *)
Record H5T : Type := mkH5T {
  H5Tget_size : hid_t -> Z;
  H5Tget_class : hid_t -> Z;
  H5Tget_nmembers : hid_t -> Z;
  H5Tget_member_class : hid_t -> Z -> Z;
  H5Tget_member_type : hid_t -> Z -> hid_t;
  H5Tget_member_name : hid_t -> Z -> option string;
  H5Tget_member_offset : hid_t -> Z -> Z;
  H5Tequal : hid_t -> hid_t -> Z
}.

(** [C.GoString] of a possibly NULL C string. *)
Definition C_GoString (c_name : option string) : string :=
  match c_name with
  | Some s => s
  | None => EmptyString
  end.

Section Introspection.

Variable pkg : Package.
Variable eng : H5T.

Definition t_id (t : DynDatatype) : hid_t := id (DynDatatype_Location t).

Definition Size (t : DynDatatype) : Z := H5Tget_size eng (t_id t).

Definition Class (t : DynDatatype) : TypeClass := class t.

Definition NewDynDatatype (i : hid_t) : DynDatatype :=
  let cls := H5Tget_class eng i in
  mkDynDatatype (mkLocation i) cls.

Definition NMembers (t : DynDatatype) : result Z :=
  if negb (class t =? T_COMPOUND pkg) then Err (dynamic_error 7301)
  else Ok (H5Tget_nmembers eng (t_id t)).

Definition MemberType (t : DynDatatype) (mbr_idx : Z) : result DynDatatype :=
  if negb (class t =? T_COMPOUND pkg) then Err (dynamic_error 7302)
  else
    let cls := H5Tget_member_class eng (t_id t) (to_c_uint mbr_idx) in
    match h5err pkg (to_herr_t cls) with
    | Some err => Err err
    | None =>
        let hid := H5Tget_member_type eng (t_id t) (to_c_uint mbr_idx) in
        match h5err pkg (to_herr_t hid) with
        | Some err => Err err
        | None => Ok (NewDynDatatype hid)
        end
    end.

(** No class test and no error result: the text the engine hands back. *)
Definition MemberName (t : DynDatatype) (mbr_idx : Z) : string :=
  let c_name := H5Tget_member_name eng (t_id t) (to_c_uint mbr_idx) in
  C_GoString c_name.

(** No class test and no error result: the number the engine hands back. *)
Definition MemberOffset (t : DynDatatype) (mbr_idx : Z) : Z :=
  let k := H5Tget_member_offset eng (t_id t) (to_c_uint mbr_idx) in
  wrap_int k.

Definition equal (t : DynDatatype) (b : Datatype) : bool :=
  let v := H5Tequal eng (t_id t) (id (Datatype_Location b)) in
  if v >? 0 then true else false.

Definition primitiveUnpacker (t : DynDatatype) : result primitiveUnpack :=
  if equal t (T_NATIVE_LLONG pkg) then Ok longUnpacker
  else if equal t (T_NATIVE_INT pkg) then Ok integerUnpacker
  else if equal t (T_NATIVE_FLOAT pkg) then Ok floatUnpacker
  else if equal t (T_GO_STRING pkg) then Ok stringUnpacker
  else Err (dynamic_error 7307).

(** The value side of a Go [(f, err)] pair: [nil] when the call failed. *)
Definition value_or_nil {A : Type} (r : result A) : option A :=
  match r with
  | Ok a => Some a
  | Err _ => None
  end.

(** The loop of [MakeUnpacker]: [k] iterations remain, [i] is the loop
    index and [u] the slice being filled. *)
Fixpoint MakeUnpacker_loop (t : DynDatatype) (k i : nat)
    (u : list (option primitiveUnpack)) : result Unpacker :=
  match k with
  | O => Ok (mkUnpacker u)
  | S k' =>
      match MemberType t (Z.of_nat i) with
      | Err err => Err err
      | Ok mt =>
          let ufunc := value_or_nil (primitiveUnpacker mt) in
          MakeUnpacker_loop t k' (S i) (<[i:=ufunc]> u)
      end
  end.

(** [make([]primitiveUnpack, n)] panics on a negative length. *)
Definition MakeUnpacker (t : DynDatatype) : outcome (result Unpacker) :=
  if negb (class t =? T_COMPOUND pkg) then Returns (Err (dynamic_error 7304))
  else
    let n := match NMembers t with Ok n => n | Err _ => 0 end in
    if n <? 0 then Panics
    else
      let u := replicate (Z.to_nat n) (None : option primitiveUnpack) in
      Returns (MakeUnpacker_loop t (Z.to_nat n) 0 u).

End Introspection.

(** ** Decoding one record *)

(** The loop of [Unpack]: [k] iterations remain, [i] is the loop index, [p]
    the cursor and [res] the result slice.  The index never leaves the
    slice, whose length is the loop bound. *)
Fixpoint Unpack_loop (m : Memory) (us : list (option primitiveUnpack))
    (k i : nat) (p : Z) (res : list iface) : list iface :=
  match k with
  | O => res
  | S k' =>
      match us !! i with
      | Some (Some f) =>
          let '(v, p') := f m p in
          Unpack_loop m us k' (S i) p' (<[i:=v]> res)
      | _ => Unpack_loop m us k' (S i) p res
      end
  end.

Definition Unpack (m : Memory) (u : Unpacker) (data : SliceHeader) : list iface :=
  let p := Data data in
  let n := length (unpackers u) in
  let res := replicate n iface_nil in
  Unpack_loop m (unpackers u) n 0 p res.

(** ** The engine's stateful calls *)

(** One entry per call that leaves the Go side, with its arguments and what
    came back. *)
Inductive event : Type :=
  | ev_malloc (size ptr : Z)
  | ev_free (ptr : Z)
  | ev_H5Tclose (i : hid_t) (rc : Z)
  | ev_CreateIndex (i : hid_t) (err : option error)
  | ev_H5PTget_num_packets (i : hid_t) (rc nrecords : Z)
  | ev_H5PTget_next (i : hid_t) (n buf rc : Z)
  | ev_H5PTread_packets (i : hid_t) (start n buf rc : Z).

(** The calls themselves, over an engine state [St] of which nothing is
    assumed.  [CreateIndex] is the [Table] method of the binding (another
    file); [H5PTget_num_packets] yields its status and what it stored in
    its out-parameter. *)
Record Engine (St : Type) : Type := mkEngine {
  malloc : Z -> St -> Z * St;
  free : Z -> St -> St;
  H5Tclose : hid_t -> St -> Z * St;
  CreateIndex : Table -> St -> option error * St;
  H5PTget_num_packets : hid_t -> St -> (Z * Z) * St;
  H5PTget_next : hid_t -> Z -> Z -> St -> Z * St;
  H5PTread_packets : hid_t -> Z -> Z -> Z -> St -> Z * St
}.
Arguments malloc {St} _ _ _.
Arguments free {St} _ _ _.
Arguments H5Tclose {St} _ _ _.
Arguments CreateIndex {St} _ _ _.
Arguments H5PTget_num_packets {St} _ _ _.
Arguments H5PTget_next {St} _ _ _ _ _.
Arguments H5PTread_packets {St} _ _ _ _ _ _.

Record World (St : Type) : Type := mkWorld {
  engine_state : St;
  trace : list event
}.
Arguments mkWorld {St} _ _.
Arguments engine_state {St} _.
Arguments trace {St} _.

(** State and panics threaded through a Go function body. *)
Definition M (St A : Type) : Type := World St -> outcome A * World St.

Definition ret {St A : Type} (a : A) : M St A := fun w => (Returns a, w).

Definition panic {St A : Type} : M St A := fun w => (Panics, w).

Definition bind {St A B : Type} (c : M St A) (k : A -> M St B) : M St B :=
  fun w =>
    match c w with
    | (Returns a, w') => k a w'
    | (Panics, w') => (Panics, w')
    end.

Notation "x <- c ;; k" := (bind c (fun x => k))
  (at level 60, c at next level, right associativity).

Section EngineCalls.

Context {St : Type}.
Variable eng : Engine St.

(** Makes a call on the engine state and appends its [event]. *)
Definition call {A : Type} (f : St -> A * St) (ev : A -> event) : M St A :=
  fun w =>
    let '(a, s') := f (engine_state w) in
    (Returns a, mkWorld s' (trace w ++ [ev a])).

Definition C_malloc (size : Z) : M St Z :=
  call (malloc eng size) (ev_malloc size).

Definition C_free (ptr : Z) : M St unit :=
  call (fun s => (tt, free eng ptr s)) (fun _ => ev_free ptr).

Definition C_H5Tclose (i : hid_t) : M St Z :=
  call (H5Tclose eng i) (ev_H5Tclose i).

Definition Table_CreateIndex (t : Table) : M St (option error) :=
  call (CreateIndex eng t) (ev_CreateIndex (id (Table_Location t))).

Definition C_H5PTget_num_packets (i : hid_t) : M St (Z * Z) :=
  call (H5PTget_num_packets eng i)
       (fun r => ev_H5PTget_num_packets i (fst r) (snd r)).

Definition C_H5PTget_next (i : hid_t) (n buf : Z) : M St Z :=
  call (H5PTget_next eng i n buf) (ev_H5PTget_next i n buf).

Definition C_H5PTread_packets (i : hid_t) (start n buf : Z) : M St Z :=
  call (H5PTread_packets eng i start n buf) (ev_H5PTread_packets i start n buf).

End EngineCalls.

(** ** Releasing a datatype *)

Section Release.

Context {St : Type}.
Variable pkg : Package.
Variable eng : Engine St.

(** [Close] has a pointer receiver: the datatype it leaves behind is
    returned next to the error. *)
Definition Close (t : DynDatatype) : M St (option error * DynDatatype) :=
  if t_id t >? 0 then
    rc <- C_H5Tclose eng (t_id t) ;;
    let err := h5err pkg rc in
    ret (err, mkDynDatatype (mkLocation 0) (class t))
  else ret (None, t).

Definition finalizer (t : DynDatatype) : M St DynDatatype :=
  r <- Close t ;;
  match fst r with
  | Some _ => panic
  | None => ret (snd r)
  end.

End Release.

(** ** Reading packets from a table *)

Record TableReader : Type := mkTableReader {
  source : Table;
  bytesPerRecord : Z;
  buffer : Z;
  bufferCap : Z;
  remain : Z
}.

Definition set_remain (rdr : TableReader) (r : Z) : TableReader :=
  mkTableReader (source rdr) (bytesPerRecord rdr) (buffer rdr) (bufferCap rdr) r.

(** The loop of [Read] that cuts the buffer into packets: [k] iterations
    remain, [i] is the loop index and [p] the address of the next packet. *)
Fixpoint Read_loop (per : Z) (k i : nat) (p : Z) (vec : list DynPacket)
    : list DynPacket :=
  match k with
  | O => vec
  | S k' =>
      let hdr := mkSliceHeader p per per in
      Read_loop per k' (S i) (uintptr_add p (to_uintptr per))
                (<[i:=mkDynPacket hdr]> vec)
  end.

Section Tables.

Context {St : Type}.
Variable pkg : Package.
Variable eng : Engine St.

(** [Read] has a pointer receiver: the reader it leaves behind is
    returned next to the Go result pair.  A [nil] slice is the empty
    list.  Dividing by zero and [make] with a negative length panic. *)
Definition Read (rdr : TableReader) (num : Z)
    : M St ((list DynPacket * option error) * TableReader) :=
  num <- (if int_mul num (bytesPerRecord rdr) >? bufferCap rdr then
            if bytesPerRecord rdr =? 0 then panic
            else ret (int_div (bufferCap rdr) (bytesPerRecord rdr))
          else ret num) ;;
  let num := if num >? remain rdr then wrap_int (remain rdr) else num in
  if num =? 0 then ret (([], None), rdr)
  else
    rc <- C_H5PTget_next eng (id (Table_Location (source rdr)))
                         (to_size_t num) (buffer rdr) ;;
    if rc <? 0 then ret (([], h5err pkg rc), rdr)
    else
      let rdr := set_remain rdr (int_sub (remain rdr) num) in
      if num <? 0 then panic
      else
        let vec := replicate (Z.to_nat num) (mkDynPacket nil_slice) in
        let p := to_uintptr (buffer rdr) in
        ret ((Read_loop (bytesPerRecord rdr) (Z.to_nat num) 0 p vec, None), rdr).

Definition MakeTableReader (t : Table)
    : M St (option TableReader * option error) :=
  err <- Table_CreateIndex eng t ;;
  match err with
  | Some e => ret (None, Some e)
  | None =>
      r <- C_H5PTget_num_packets eng (id (Table_Location t)) ;;
      let rc := fst r in
      let c_nrecords := snd r in
      if rc <? 0 then ret (None, h5err pkg rc)
      else
        let bcap := 1000000 in
        buf <- C_malloc eng (to_size_t bcap) ;;
        let per := 32 in
        let rdr := mkTableReader t per buf bcap (wrap_int c_nrecords) in
        ret (Some rdr, None)
  end.

(** The array type of the conversion bounds the slice expression: it
    panics unless [0 <= nbytes <= 1<<30]. *)
Definition ReadPacketBytes (t : Table) (start count : Z) : M St SliceHeader :=
  let per := 24 in
  buf <- C_malloc eng 1000000 ;;
  let nbytes := int_mul count per in
  rc <- C_H5PTread_packets eng (id (Table_Location t))
                           (to_hsize_t start) (to_size_t count) buf ;;
  if rc <? 0 then
    _ <- C_free eng buf ;;
    ret nil_slice
  else
    if (nbytes <? 0) || (nbytes >? 2 ^ 30) then panic
    else ret (mkSliceHeader buf nbytes nbytes).

End Tables.

(** * Specification-side definitions and sample inputs *)

(** A decoder that moves every cursor forward by [w] bytes. *)
Definition advances_by (f : primitiveUnpack) (w : Z) : Prop :=
  forall m p, snd (f m p) = uintptr_add p w.

(** Two memories with the same [n] bytes from address [p] on. *)
Definition same_bytes (m m' : Memory) (p : Z) (n : nat) : Prop :=
  forall k, 0 <= k < Z.of_nat n ->
    byte_at m (to_uintptr (p + k)) = byte_at m' (to_uintptr (p + k)).

(** A memory holding the little-endian bytes of 7 at address 4096. *)
Definition sample_memory : Memory :=
  mkMemory (fun a => if a =? 4096 then 7 else 0) (fun _ => EmptyString).

(** The walk over the decoder slots as the specification words it: a
    present slot decodes at the cursor and hands on the cursor it returns,
    an absent slot yields the nil value and keeps the cursor. *)
Fixpoint walk_slots (m : Memory) (p : Z) (slots : list (option primitiveUnpack))
    : list iface :=
  match slots with
  | [] => []
  | None :: rest => iface_nil :: walk_slots m p rest
  | Some f :: rest => fst (f m p) :: walk_slots m (snd (f m p)) rest
  end.

(** The cursor after the walk over [slots] from [p]. *)
Fixpoint cursor_after (m : Memory) (p : Z) (slots : list (option primitiveUnpack)) : Z :=
  match slots with
  | [] => p
  | None :: rest => cursor_after m p rest
  | Some f :: rest => cursor_after m (snd (f m p)) rest
  end.

(** The cursor at which slot [i] is reached. *)
Definition cursor_at (m : Memory) (p : Z) (slots : list (option primitiveUnpack))
    (i : nat) : Z :=
  cursor_after m p (take i slots).

(** What slot [i] stores in the result. *)
Definition slot_value (m : Memory) (p : Z) (slot : option primitiveUnpack) : iface :=
  match slot with
  | Some f => fst (f m p)
  | None => iface_nil
  end.

(** Where slot [i] leaves the cursor. *)
Definition slot_cursor (m : Memory) (p : Z) (slot : option primitiveUnpack) : Z :=
  match slot with
  | Some f => snd (f m p)
  | None => p
  end.

(** The cursor at which [Unpack] reaches slot [i] of [u] on [data]. *)
Definition Unpack_cursor (m : Memory) (u : Unpacker) (data : SliceHeader) (i : nat) : Z :=
  cursor_at m (Data data) (unpackers u) i.

(** A record decoder with an absent slot between two present ones, and a
    record at address 4096. *)
Definition sample_unpacker : Unpacker :=
  mkUnpacker [Some longUnpacker; None; Some floatUnpacker].

Definition sample_record : SliceHeader := mkSliceHeader 4096 12 12.


(** The table [primitiveUnpacker] goes through, in the order of its cases. *)
Definition known_types (pkg : Package) : list (Datatype * primitiveUnpack) :=
  [ (T_NATIVE_LLONG pkg, longUnpacker);
    (T_NATIVE_INT pkg, integerUnpacker);
    (T_NATIVE_FLOAT pkg, floatUnpacker);
    (T_GO_STRING pkg, stringUnpacker) ].

(** The decoder of the first known type equal to [t], as the specification
    words the selection. *)
Definition first_match (pkg : Package) (eng : H5T) (t : DynDatatype)
    : result primitiveUnpack :=
  match List.find (fun e => equal eng t (fst e)) (known_types pkg) with
  | Some e => Ok (snd e)
  | None => Err (dynamic_error 7307)
  end.

(** An engine that answers the size and class queries differently and
    every other query as [eng] does. *)
Definition with_size_class (eng : H5T) (size cls : hid_t -> Z) : H5T :=
  mkH5T size cls (H5Tget_nmembers eng) (H5Tget_member_class eng)
        (H5Tget_member_type eng) (H5Tget_member_name eng)
        (H5Tget_member_offset eng) (H5Tequal eng).

(** The slot of one resolved member: its decoder, or the absent marker when
    the member's type has none. *)
Definition member_slot (pkg : Package) (eng : H5T) (mt : DynDatatype)
    : option primitiveUnpack :=
  value_or_nil (primitiveUnpacker pkg eng mt).

(** Member by member construction as the specification words it: stop at
    the first member whose type does not resolve, otherwise one slot per
    member. *)
Fixpoint resolve_slots (pkg : Package) (eng : H5T) (t : DynDatatype)
    (idxs : list nat) : result (list (option primitiveUnpack)) :=
  match idxs with
  | [] => Ok []
  | i :: rest =>
      match MemberType pkg eng t (Z.of_nat i) with
      | Err e => Err e
      | Ok mt =>
          match resolve_slots pkg eng t rest with
          | Err e => Err e
          | Ok slots => Ok (member_slot pkg eng mt :: slots)
          end
      end
  end.

(** *** Sample package and engine *)

Definition sample_h5err (rc : Z) : option error :=
  if rc <? 0 then Some (h5error rc) else None.

Definition sample_pkg : Package :=
  mkPackage sample_h5err 6
            (mkDatatype (mkLocation 201)) (mkDatatype (mkLocation 202))
            (mkDatatype (mkLocation 203)) (mkDatatype (mkLocation 204)).

(** Type 1 is a compound of three members whose types are the handles 11
    (a long long), 12 (of no known native type) and 13 (a float).  Type 2
    is a compound of two members, the second of which does not resolve.
    Every other handle is an integer-class type without members. *)
Definition sample_H5T : H5T :=
  mkH5T
    (fun i => if i =? 1 then 20 else 8)
    (fun i => if (i =? 1) || (i =? 2) then 6 else 0)
    (fun i => if i =? 1 then 3 else if i =? 2 then 2 else -1)
    (fun i idx =>
       if (i =? 1) && (idx <? 3) then 0
       else if (i =? 2) && (idx =? 0) then 0 else -1)
    (fun i idx =>
       if (i =? 1) && (idx <? 3) then 11 + idx
       else if (i =? 2) && (idx =? 0) then 11 else -1)
    (fun i idx => if (i =? 1) && (idx =? 0) then Some "a"%string else None)
    (fun i idx => if (i =? 1) && (idx <? 3) then 8 * idx else 0)
    (fun a b =>
       if ((a =? 11) && (b =? 201)) || ((a =? 13) && (b =? 203)) then 1 else 0).

Definition sample_compound : DynDatatype := mkDynDatatype (mkLocation 1) 6.
Definition sample_broken_compound : DynDatatype := mkDynDatatype (mkLocation 2) 6.
Definition sample_integer : DynDatatype := mkDynDatatype (mkLocation 12) 0.

(** *** The member accessors under one roof *)

Inductive accessor : Type :=
  | acc_NMembers
  | acc_MemberType (mbr_idx : Z)
  | acc_MemberName (mbr_idx : Z)
  | acc_MemberOffset (mbr_idx : Z).

Inductive answer : Type :=
  | ans_int (n : Z)
  | ans_type (t : DynDatatype)
  | ans_text (s : string).

(** What a caller gets from each accessor.  [NMembers] and [MemberType]
    have an error result; [MemberName] and [MemberOffset] have none in
    their signatures, so whatever they compute is a returned value. *)
Definition call_accessor (pkg : Package) (eng : H5T) (t : DynDatatype)
    (a : accessor) : result answer :=
  match a with
  | acc_NMembers =>
      match NMembers pkg eng t with
      | Ok n => Ok (ans_int n)
      | Err e => Err e
      end
  | acc_MemberType i =>
      match MemberType pkg eng t i with
      | Ok mt => Ok (ans_type mt)
      | Err e => Err e
      end
  | acc_MemberName i => Ok (ans_text (MemberName eng t i))
  | acc_MemberOffset i => Ok (ans_int (MemberOffset eng t i))
  end.

(** The errors of this file that say "not a compound type". *)
Definition not_compound_error {A : Type} (r : result A) : Prop :=
  exists code : Z, r = Err (dynamic_error code).

(** *** A simulated engine *)

(** The open datatype handles, whether the packet-table calls fail, the
    number of packets in the table, the read position of [H5PTget_next]
    and the next address [malloc] hands out. *)
Record sim : Type := mkSim {
  sim_open : list hid_t;
  sim_fail : bool;
  sim_total : Z;
  sim_pos : Z;
  sim_brk : Z
}.

Definition sim_engine : Engine sim :=
  mkEngine sim
    (fun size s =>
       (sim_brk s,
        mkSim (sim_open s) (sim_fail s) (sim_total s) (sim_pos s) (sim_brk s + size)))
    (fun ptr s => s)
    (fun i s =>
       if existsb (Z.eqb i) (sim_open s)
       then (0, mkSim (List.filter (fun j => negb (j =? i)) (sim_open s))
                      (sim_fail s) (sim_total s) (sim_pos s) (sim_brk s))
       else (-1, s))
    (fun t s => (None, s))
    (fun i s => ((0, sim_total s), s))
    (fun i n buf s =>
       if sim_fail s then (-1, s)
       else (0, mkSim (sim_open s) (sim_fail s) (sim_total s) (sim_pos s + n) (sim_brk s)))
    (fun i start n buf s => if sim_fail s then (-1, s) else (0, s)).

(** A world whose table holds [total] packets, with datatype handle 5 open. *)
Definition sim_world (fail : bool) (total : Z) : World sim :=
  mkWorld (mkSim [5] fail total 0 4096) [].

Definition sample_table : Table := mkTable (mkLocation 9).
Definition sample_open_type : DynDatatype := mkDynDatatype (mkLocation 5) 6.

(** *** Reading, in the words of the specification *)

(** The fields of a reader are Go integers; the width is positive and the
    capacity and the count of records left are not negative. *)
Definition reader_ok (rdr : TableReader) : Prop :=
  0 < bytesPerRecord rdr <= max_int /\
  0 <= bufferCap rdr <= max_int /\
  0 <= remain rdr <= max_int.

(** [floor(bufferCapacity / recordWidth)]. *)
Definition records_per_buffer (rdr : TableReader) : Z :=
  bufferCap rdr / bytesPerRecord rdr.

(** [min(requestedCount, floor(bufferCapacity / recordWidth), remaining)]. *)
Definition clamp (rdr : TableReader) (num : Z) : Z :=
  Z.min num (Z.min (records_per_buffer rdr) (remain rdr)).

(** [n] views of [per] bytes each, one after the other from [buf] on. *)
Definition packet_views (buf per : Z) (n : nat) : list DynPacket :=
  map (fun i => mkDynPacket (mkSliceHeader (uintptr_add buf (Z.of_nat i * per)) per per))
      (seq 0 n).

(** The world after a call of [H5PTget_next] for [n] records that returned
    [rc] and left the engine in state [s]. *)
Definition after_get_next {St : Type} (rdr : TableReader) (n rc : Z) (s : St)
    (w : World St) : World St :=
  mkWorld s (trace w ++ [ev_H5PTget_next (id (Table_Location (source rdr))) n (buffer rdr) rc]).

(** The pull loop of a caller: [Read] with the same request until a pull
    comes back empty; the sizes of the pulls, the empty one included.  An
    error or a panic ends the loop. *)
Fixpoint pulls {St : Type} (pkg : Package) (eng : Engine St) (fuel : nat)
    (rdr : TableReader) (num : Z) (w : World St) : list Z :=
  match fuel with
  | O => []
  | S fuel' =>
      match Read pkg eng rdr num w with
      | (Returns ((vec, None), rdr'), w') =>
          match vec with
          | [] => [0]
          | _ :: _ => Z.of_nat (length vec) :: pulls pkg eng fuel' rdr' num w'
          end
      | _ => []
      end
  end.

(** The pulls the specification expects from [r] records at [k] records
    per pull: full pulls, the rest if there is one, and the empty pull. *)
Definition expected_pulls (r k : Z) : list Z :=
  replicate (Z.to_nat (r / k)) k ++ (if r mod k =? 0 then [] else [r mod k]) ++ [0].

(** The reader [MakeTableReader] makes for a table of [total] records when
    [malloc] hands out the address [buf]. *)
Definition made_reader (t : Table) (buf total : Z) : TableReader :=
  mkTableReader t 32 buf 1000000 (wrap_int total).

Definition sample_reader : TableReader := made_reader sample_table 4096 5.

(** The pulls before the empty one. *)
Definition nonempty_pulls (r k : Z) : list Z :=
  replicate (Z.to_nat (r / k)) k ++ (if r mod k =? 0 then [] else [r mod k]).

Definition total_records (sizes : list Z) : Z := fold_right Z.add 0 sizes.

Definition non_increasing (sizes : list Z) : Prop :=
  forall (i : nat) (a b : Z),
    sizes !! i = Some a -> sizes !! S i = Some b -> b <= a.

(** [ceil(r / k)]. *)
Definition ceil_div (r k : Z) : Z := (r + k - 1) / k.

(** The world in which [MakeTableReader] leaves the simulated engine. *)
Definition made_world (total : Z) : World sim :=
  mkWorld (mkSim [5] false total 0 1004096)
          [ev_CreateIndex 9 None; ev_H5PTget_num_packets 9 0 total;
           ev_malloc 1000000 4096].

(** * The rest of dynamic.go *)

(** ** Members *)

(** The loop of [Members]: [k] iterations remain, [i] is the loop index and
    [m] the map being filled.  A member whose type does not resolve is
    skipped; a name met again replaces the earlier entry. *)
Fixpoint Members_loop (pkg : Package) (eng : H5T) (t : DynDatatype) (k i : nat)
    (m : gmap string DynDatatype) : gmap string DynDatatype :=
  match k with
  | O => m
  | S k' =>
      match MemberType pkg eng t (Z.of_nat i) with
      | Ok mtype =>
          Members_loop pkg eng t k' (S i) (<[MemberName eng t (Z.of_nat i) := mtype]> m)
      | Err _ => Members_loop pkg eng t k' (S i) m
      end
  end.

(** [make(map[string]*DynDatatype, n)] takes [n] as a hint only; the loop
    does not run when [n] is not positive. *)
Definition Members (pkg : Package) (eng : H5T) (t : DynDatatype)
    : result (gmap string DynDatatype) :=
  if negb (class t =? T_COMPOUND pkg) then Err (dynamic_error 7303)
  else
    let n := match NMembers pkg eng t with Ok n => n | Err _ => 0 end in
    Ok (Members_loop pkg eng t (Z.to_nat n) 0 ∅).

(** ** The finalizer of a reader *)

Definition TableReader_finalizer {St : Type} (eng : Engine St) (rdr : TableReader)
    : M St unit :=
  C_free eng (buffer rdr).

(** * Further specification-side definitions *)

(** The four decoders [primitiveUnpacker] can return. *)
Definition registry : list primitiveUnpack :=
  [longUnpacker; integerUnpacker; floatUnpacker; stringUnpacker].

(** A slot and the number of bytes it moves the cursor by. *)
Definition slot_advances (slot : option primitiveUnpack) (w : Z) : Prop :=
  match slot with
  | Some f => advances_by f w
  | None => w = 0
  end.

(** A slot that is absent or holds one of the three numeric decoders, with
    the number of bytes the decoder moves the cursor by. *)
Definition numeric_slot (slot : option primitiveUnpack) (w : Z) : Prop :=
  (slot = None /\ w = 0) \/
  (slot = Some longUnpacker /\ w = 8) \/
  (slot = Some integerUnpacker /\ w = 8) \/
  (slot = Some floatUnpacker /\ w = 4).

Definition total_width (ws : list Z) : Z := fold_right Z.add 0 ws.

(** The events that are a call of [malloc]. *)
Definition is_malloc (ev : event) : bool :=
  match ev with
  | ev_malloc _ _ => true
  | _ => false
  end.

(** An engine all of whose calls succeed, on a state that counts them. *)
Definition steady_engine : Engine nat :=
  mkEngine nat
    (fun size s => (4096, S s))
    (fun ptr s => S s)
    (fun i s => (0, S s))
    (fun t s => (None, S s))
    (fun i s => ((0, 7), S s))
    (fun i n buf s => (0, S s))
    (fun i start n buf s => (0, S s)).

Definition steady_world : World nat := mkWorld 0%nat [].

(** Type 3 of this engine is a compound of three members, the first and
    the last of which are both named "x"; the types of the members are 11,
    12 and 13 as in [sample_H5T]. *)
Definition named_H5T : H5T :=
  mkH5T
    (H5Tget_size sample_H5T)
    (fun i => if i =? 3 then 6 else H5Tget_class sample_H5T i)
    (fun i => if i =? 3 then 3 else H5Tget_nmembers sample_H5T i)
    (fun i idx => if i =? 3 then (if idx <? 3 then 0 else -1)
                  else H5Tget_member_class sample_H5T i idx)
    (fun i idx => if i =? 3 then (if idx <? 3 then 11 + idx else -1)
                  else H5Tget_member_type sample_H5T i idx)
    (fun i idx => if i =? 3 then (if idx =? 1 then Some "y"%string else Some "x"%string)
                  else H5Tget_member_name sample_H5T i idx)
    (H5Tget_member_offset sample_H5T)
    (H5Tequal sample_H5T).

Definition named_compound : DynDatatype := mkDynDatatype (mkLocation 3) 6.

(** The entry a name ends up with when the members [idxs] are entered in
    order: the type of the last member of that name whose type resolves. *)
Fixpoint last_named (pkg : Package) (eng : H5T) (t : DynDatatype) (s : string)
    (idxs : list nat) : option DynDatatype :=
  match idxs with
  | [] => None
  | i :: rest =>
      match last_named pkg eng t s rest with
      | Some mt => Some mt
      | None =>
          match MemberType pkg eng t (Z.of_nat i) with
          | Ok mt => if String.eqb (MemberName eng t (Z.of_nat i)) s then Some mt else None
          | Err _ => None
          end
      end
  end.

(** The events that are a call of [free]. *)
Definition is_free (ev : event) : bool :=
  match ev with
  | ev_free _ => true
  | _ => false
  end.

(** The sample compound descriptor after [Close]: the class stays, the
    handle is 0, for which the sample engine reports the member count -1. *)
Definition closed_compound : DynDatatype := mkDynDatatype (mkLocation 0) 6.
(** * Properties *)

(** ** Machine-integer facts *)

Lemma wrap_int_id (z : Z) : min_int <= z <= max_int -> wrap_int z = z.
Proof.
  unfold wrap_int, wrap_signed, min_int, max_int. intros Hz.
  rewrite Z.mod_small; lia.
Qed.

(** ** The primitive decoders: bytes read and cursor advance *)

Lemma load_le_same_bytes (m m' : Memory) (n : nat) :
  forall p, same_bytes m m' p n -> load_le m p n = load_le m' p n.
Proof.
  induction n as [|n IH]; intros p Hsame; [reflexivity|].
  cbn [load_le]. rewrite (IH (p + 1)).
  - specialize (Hsame 0). rewrite Z.add_0_r in Hsame. rewrite Hsame; [reflexivity|lia].
  - intros k Hk. specialize (Hsame (1 + k)).
    replace (p + (1 + k)) with (p + 1 + k) in Hsame by lia. apply Hsame. lia.
Qed.

Lemma longUnpacker_advance : advances_by longUnpacker 8.
Proof. intros m p. reflexivity. Qed.

Lemma floatUnpacker_advance : advances_by floatUnpacker 4.
Proof. intros m p. reflexivity. Qed.

Lemma integerUnpacker_advance : advances_by integerUnpacker 8.
Proof. intros m p. reflexivity. Qed.

Lemma stringUnpacker_advance : advances_by stringUnpacker _go_hdf5_sizeof_uintptr.
Proof.
  intros m p. unfold stringUnpacker.
  destruct (load_uintptr m p =? 0); reflexivity.
Qed.

Lemma longUnpacker_reads_8 (m m' : Memory) (p : Z) :
  same_bytes m m' p 8 -> fst (longUnpacker m p) = fst (longUnpacker m' p).
Proof.
  intros H. unfold longUnpacker, load_int64. cbn [fst].
  now rewrite (load_le_same_bytes m m' 8 p H).
Qed.

Lemma floatUnpacker_reads_4 (m m' : Memory) (p : Z) :
  same_bytes m m' p 4 -> fst (floatUnpacker m p) = fst (floatUnpacker m' p).
Proof.
  intros H. unfold floatUnpacker, load_float32. cbn [fst].
  now rewrite (load_le_same_bytes m m' 4 p H).
Qed.

Lemma integerUnpacker_reads_4 (m m' : Memory) (p : Z) :
  same_bytes m m' p 4 -> fst (integerUnpacker m p) = fst (integerUnpacker m' p).
Proof.
  intros H. unfold integerUnpacker, load_int32. cbn [fst].
  now rewrite (load_le_same_bytes m m' 4 p H).
Qed.

Lemma uintptr_add_4_8 (p : Z) : uintptr_add p 8 <> uintptr_add p 4.
Proof.
  unfold uintptr_add, to_uintptr, wrap_unsigned. intros H.
  assert (H8 := Z.div_mod (p + 8) (2 ^ 64) ltac:(lia)).
  assert (H4 := Z.div_mod (p + 4) (2 ^ 64) ltac:(lia)).
  rewrite H in H8.
  assert (Hd : 2 ^ 64 * ((p + 8) / 2 ^ 64 - (p + 4) / 2 ^ 64) = 4) by lia.
  lia.
Qed.

(** C5 (the 32-bit integer decoder).  [integerUnpacker] decodes an [int32]
    from the four bytes at the cursor and nothing else, yet it returns the
    cursor moved by eight bytes, never by four; at cursor 4096 it yields
    the cursor 4104. *)
Theorem integerUnpacker_reads_4_advances_8 :
  (forall m p, snd (integerUnpacker m p) = uintptr_add p 8) /\
  (forall m p, snd (integerUnpacker m p) <> uintptr_add p 4) /\
  (forall m m' p, same_bytes m m' p 4 ->
     fst (integerUnpacker m p) = fst (integerUnpacker m' p)) /\
  integerUnpacker sample_memory 4096 = (iface_int32 7, 4104).
Proof.
  split; [|split; [|split]].
  - intros m p. reflexivity.
  - intros m p. apply uintptr_add_4_8.
  - apply integerUnpacker_reads_4.
  - reflexivity.
Qed.

(** ** Unpack *)

Lemma Unpack_loop_walk (m : Memory) (rest : list (option primitiveUnpack)) :
  forall (pre : list (option primitiveUnpack)) (p : Z) (done : list iface),
    length done = length pre ->
    Unpack_loop m (pre ++ rest) (length rest) (length pre) p
                (done ++ replicate (length rest) iface_nil)
    = done ++ walk_slots m p rest.
Proof.
  induction rest as [|slot rest IH]; intros pre p done Hlen; [reflexivity|].
  cbn [length Unpack_loop replicate walk_slots].
  rewrite list_lookup_middle by reflexivity.
  assert (Hpre : pre ++ slot :: rest = (pre ++ [slot]) ++ rest)
    by now rewrite <- app_assoc.
  assert (HS : S (length pre) = length (pre ++ [slot]))
    by (rewrite length_app; cbn; lia).
  destruct slot as [f|].
  - destruct (f m p) as [v p'] eqn:Hf. cbn [fst snd].
    rewrite insert_app_r_alt by lia.
    replace (length pre - length done)%nat with 0%nat by lia. cbn [insert list_insert].
    rewrite Hpre, HS.
    replace (done ++ v :: replicate (length rest) iface_nil)
      with ((done ++ [v]) ++ replicate (length rest) iface_nil)
      by now rewrite <- app_assoc.
    rewrite IH by (rewrite !length_app; cbn; lia).
    now rewrite <- app_assoc.
  - rewrite Hpre, HS.
    replace (done ++ iface_nil :: replicate (length rest) iface_nil)
      with ((done ++ [iface_nil]) ++ replicate (length rest) iface_nil)
      by now rewrite <- app_assoc.
    rewrite IH by (rewrite !length_app; cbn; lia).
    now rewrite <- app_assoc.
Qed.

Lemma Unpack_walk (m : Memory) (u : Unpacker) (data : SliceHeader) :
  Unpack m u data = walk_slots m (Data data) (unpackers u).
Proof.
  unfold Unpack.
  exact (Unpack_loop_walk m (unpackers u) [] (Data data) [] eq_refl).
Qed.

Lemma walk_slots_length (m : Memory) (slots : list (option primitiveUnpack)) :
  forall p, length (walk_slots m p slots) = length slots.
Proof.
  induction slots as [|[f|] rest IH]; intros p; cbn; [reflexivity| |];
    now rewrite IH.
Qed.

Lemma walk_slots_lookup (m : Memory) (slots : list (option primitiveUnpack)) :
  forall (p : Z) (i : nat) (slot : option primitiveUnpack),
    slots !! i = Some slot ->
    walk_slots m p slots !! i = Some (slot_value m (cursor_at m p slots i) slot).
Proof.
  induction slots as [|s rest IH]; intros p i slot Hi; [discriminate|].
  destruct i as [|i].
  - cbn in Hi. injection Hi as ->. destruct slot; reflexivity.
  - cbn in Hi. destruct s as [f|]; cbn; unfold cursor_at in *; cbn;
      now apply IH.
Qed.

Lemma cursor_after_app (m : Memory) (xs ys : list (option primitiveUnpack)) :
  forall p, cursor_after m p (xs ++ ys) = cursor_after m (cursor_after m p xs) ys.
Proof.
  induction xs as [|[f|] xs IH]; intros p; cbn; [reflexivity| |]; apply IH.
Qed.

Lemma cursor_at_succ (m : Memory) (p : Z) (slots : list (option primitiveUnpack))
    (i : nat) (slot : option primitiveUnpack) :
  slots !! i = Some slot ->
  cursor_at m p slots (S i) = slot_cursor m (cursor_at m p slots i) slot.
Proof.
  intros Hi. unfold cursor_at.
  rewrite (take_S_r slots i slot Hi), cursor_after_app.
  destruct slot; reflexivity.
Qed.

(** C1.  [Unpack] yields one entry per decoder slot, in slot order.  The
    walk starts at the first byte of the input; a present slot stores what
    its decoder produces at the current cursor and moves the cursor to where
    the decoder leaves it, that is by the decoder's fixed width; an absent
    slot stores the nil value and leaves the cursor where it is. *)
Theorem Unpack_walks_slots_in_order (m : Memory) (u : Unpacker) (data : SliceHeader) :
  length (Unpack m u data) = length (unpackers u) /\
  Unpack_cursor m u data 0 = Data data /\
  forall (i : nat) (slot : option primitiveUnpack),
    unpackers u !! i = Some slot ->
    match slot with
    | Some f =>
        Unpack m u data !! i = Some (fst (f m (Unpack_cursor m u data i))) /\
        Unpack_cursor m u data (S i) = snd (f m (Unpack_cursor m u data i)) /\
        (forall w, advances_by f w ->
           Unpack_cursor m u data (S i) = uintptr_add (Unpack_cursor m u data i) w)
    | None =>
        Unpack m u data !! i = Some iface_nil /\
        Unpack_cursor m u data (S i) = Unpack_cursor m u data i
    end.
Proof.
  unfold Unpack_cursor. rewrite Unpack_walk.
  split; [apply walk_slots_length|]. split; [reflexivity|].
  intros i slot Hi.
  pose proof (walk_slots_lookup m (unpackers u) (Data data) i slot Hi) as Hv.
  pose proof (cursor_at_succ m (Data data) (unpackers u) i slot Hi) as Hc.
  destruct slot as [f|]; cbn in Hv, Hc.
  - split; [exact Hv|]. split; [exact Hc|].
    intros w Hw. rewrite Hc. apply Hw.
  - split; [exact Hv | exact Hc].
Qed.

Lemma Unpack_walks_slots_in_order_witness :
  length (Unpack sample_memory sample_unpacker sample_record) = 3%nat /\
  Unpack sample_memory sample_unpacker sample_record !! 1%nat = Some iface_nil /\
  Unpack sample_memory sample_unpacker sample_record !! 2%nat
    = Some (fst (floatUnpacker sample_memory 4104)) /\
  Unpack_cursor sample_memory sample_unpacker sample_record 3 = 4108.
Proof.
  destruct (Unpack_walks_slots_in_order sample_memory sample_unpacker sample_record)
    as [Hlen [_ Hslots]].
  split; [exact Hlen|].
  destruct (Hslots 1%nat None eq_refl) as [Hnil _].
  destruct (Hslots 2%nat (Some floatUnpacker) eq_refl) as [Hv [_ Hw]].
  split; [exact Hnil|]. split; [exact Hv|].
  exact (Hw 4 floatUnpacker_advance).
Defined.

(** ** Selecting a primitive decoder *)

Lemma primitiveUnpacker_first_match (pkg : Package) (eng : H5T) (t : DynDatatype) :
  primitiveUnpacker pkg eng t = first_match pkg eng t.
Proof.
  unfold primitiveUnpacker, first_match, known_types. cbn [List.find fst snd].
  destruct (equal eng t (T_NATIVE_LLONG pkg)); [reflexivity|].
  destruct (equal eng t (T_NATIVE_INT pkg)); [reflexivity|].
  destruct (equal eng t (T_NATIVE_FLOAT pkg)); [reflexivity|].
  destruct (equal eng t (T_GO_STRING pkg)); reflexivity.
Qed.

(** C7.  [primitiveUnpacker] returns the decoder of the first entry of the
    table (long long, int, float, Go string, in this order) whose type the
    engine's equality test accepts, and the unsupported-type error 7307 when
    the test accepts none.  The class tag of the descriptor and the engine's
    size and class queries have no part in the choice. *)
Theorem primitiveUnpacker_first_match_no_fallback
    (pkg : Package) (eng : H5T) (t : DynDatatype) :
  map fst (known_types pkg)
    = [T_NATIVE_LLONG pkg; T_NATIVE_INT pkg; T_NATIVE_FLOAT pkg; T_GO_STRING pkg] /\
  primitiveUnpacker pkg eng t
    = match List.find (fun e => equal eng t (fst e)) (known_types pkg) with
      | Some e => Ok (snd e)
      | None => Err (dynamic_error 7307)
      end /\
  (forall cls : TypeClass,
     primitiveUnpacker pkg eng (mkDynDatatype (DynDatatype_Location t) cls)
       = primitiveUnpacker pkg eng t) /\
  (forall size cls : hid_t -> Z,
     primitiveUnpacker pkg (with_size_class eng size cls) t
       = primitiveUnpacker pkg eng t).
Proof.
  split; [reflexivity|]. split; [apply primitiveUnpacker_first_match|].
  split; intros; reflexivity.
Qed.

Example primitiveUnpacker_sample_long :
  primitiveUnpacker sample_pkg sample_H5T (NewDynDatatype sample_H5T 11) = Ok longUnpacker.
Proof. reflexivity. Qed.

Example primitiveUnpacker_sample_unsupported :
  primitiveUnpacker sample_pkg sample_H5T (NewDynDatatype sample_H5T 12)
    = Err (dynamic_error 7307).
Proof. reflexivity. Qed.

(** ** MakeUnpacker *)

Section MakeUnpackerFacts.

Variable pkg : Package.
Variable eng : H5T.
Variable t : DynDatatype.

Lemma MakeUnpacker_loop_resolve (k : nat) :
  forall (i : nat) (pre : list (option primitiveUnpack)),
    length pre = i ->
    MakeUnpacker_loop pkg eng t k i (pre ++ replicate k None)
    = match resolve_slots pkg eng t (seq i k) with
      | Ok slots => Ok (mkUnpacker (pre ++ slots))
      | Err e => Err e
      end.
Proof.
  induction k as [|k IH]; intros i pre Hlen.
  - cbn. now rewrite app_nil_r.
  - cbn [MakeUnpacker_loop seq resolve_slots replicate].
    destruct (MemberType pkg eng t (Z.of_nat i)) as [mt|e]; [|reflexivity].
    rewrite insert_app_r_alt by lia.
    replace (i - length pre)%nat with 0%nat by lia. cbn [insert list_insert].
    replace (pre ++ value_or_nil (primitiveUnpacker pkg eng mt) :: replicate k None)
      with ((pre ++ [member_slot pkg eng mt]) ++ replicate k None)
      by now rewrite <- app_assoc.
    rewrite IH by (rewrite length_app; cbn; lia).
    destruct (resolve_slots pkg eng t (seq (S i) k)) as [slots|e]; [|reflexivity].
    now rewrite <- app_assoc.
Qed.

Lemma resolve_slots_ok (k : nat) :
  forall i : nat,
    (forall j, (i <= j < i + k)%nat -> exists mt, MemberType pkg eng t (Z.of_nat j) = Ok mt) ->
    exists slots, resolve_slots pkg eng t (seq i k) = Ok slots.
Proof.
  induction k as [|k IH]; intros i Hall; [now exists []|].
  cbn [seq resolve_slots].
  destruct (Hall i ltac:(lia)) as [mt ->].
  destruct (IH (S i)) as [slots ->]; [intros j Hj; apply Hall; lia|].
  eauto.
Qed.

Lemma resolve_slots_ok_inv (k : nat) :
  forall (i : nat) (slots : list (option primitiveUnpack)),
    resolve_slots pkg eng t (seq i k) = Ok slots ->
    length slots = k /\
    forall j mt, (j < k)%nat ->
      MemberType pkg eng t (Z.of_nat (i + j)) = Ok mt ->
      slots !! j = Some (member_slot pkg eng mt).
Proof.
  induction k as [|k IH]; intros i slots Hres.
  - cbn in Hres. injection Hres as <-. split; [reflexivity|]. intros; lia.
  - cbn [seq resolve_slots] in Hres.
    destruct (MemberType pkg eng t (Z.of_nat i)) as [mt0|e] eqn:Hmt; [|discriminate].
    destruct (resolve_slots pkg eng t (seq (S i) k)) as [rest|e] eqn:Hrest; [|discriminate].
    injection Hres as <-. destruct (IH (S i) rest Hrest) as [Hlen Hslots].
    split; [cbn; lia|].
    intros [|j] mt Hj Hmtj.
    + rewrite Nat.add_0_r in Hmtj. cbn. congruence.
    + cbn. apply Hslots; [lia|]. now replace (S i + j)%nat with (i + S j)%nat by lia.
Qed.

Lemma resolve_slots_first_failure (k : nat) :
  forall (i j : nat) (e : error),
    (i <= j < i + k)%nat ->
    MemberType pkg eng t (Z.of_nat j) = Err e ->
    (forall j', (i <= j' < j)%nat -> exists mt, MemberType pkg eng t (Z.of_nat j') = Ok mt) ->
    resolve_slots pkg eng t (seq i k) = Err e.
Proof.
  induction k as [|k IH]; intros i j e Hj Hfail Hbefore; [lia|].
  cbn [seq resolve_slots].
  destruct (Nat.eq_dec i j) as [->|Hne].
  - now rewrite Hfail.
  - destruct (Hbefore i ltac:(lia)) as [mt ->].
    rewrite (IH (S i) j e); [reflexivity|lia|exact Hfail|].
    intros j' Hj'. apply Hbefore. lia.
Qed.

Lemma resolve_slots_err_inv (k : nat) :
  forall (i : nat) (e : error),
    resolve_slots pkg eng t (seq i k) = Err e ->
    exists j, (i <= j < i + k)%nat /\ MemberType pkg eng t (Z.of_nat j) = Err e.
Proof.
  induction k as [|k IH]; intros i e Hres; [discriminate|].
  cbn [seq resolve_slots] in Hres.
  destruct (MemberType pkg eng t (Z.of_nat i)) as [mt|e0] eqn:Hmt.
  - destruct (resolve_slots pkg eng t (seq (S i) k)) as [rest|e1] eqn:Hrest; [discriminate|].
    injection Hres as ->. destruct (IH (S i) e Hrest) as (j & Hj & Hfail).
    exists j. split; [lia|exact Hfail].
  - injection Hres as ->. exists i. split; [lia|exact Hmt].
Qed.

Lemma resolve_slots_ok_all (k : nat) :
  forall (i : nat) (slots : list (option primitiveUnpack)),
    resolve_slots pkg eng t (seq i k) = Ok slots ->
    forall j, (i <= j < i + k)%nat ->
      exists mt, MemberType pkg eng t (Z.of_nat j) = Ok mt.
Proof.
  induction k as [|k IH]; intros i slots Hres j Hj; [lia|].
  cbn [seq resolve_slots] in Hres.
  destruct (MemberType pkg eng t (Z.of_nat i)) as [mt|e0] eqn:Hmt; [|discriminate].
  destruct (resolve_slots pkg eng t (seq (S i) k)) as [rest|e1] eqn:Hrest; [|discriminate].
  destruct (Nat.eq_dec j i) as [->|Hne]; [eauto|].
  apply (IH (S i) rest Hrest). lia.
Qed.

End MakeUnpackerFacts.

(** For a compound descriptor whose member count the engine reports as
    [n >= 0]: when a member's type does not resolve, and every member before
    it does, [MakeUnpacker] returns that member's error and no [Unpacker];
    whenever some member's type does not resolve, [MakeUnpacker] returns the
    error of a member's resolution; when every member's type resolves, [MakeUnpacker] returns an [Unpacker]
    of exactly [n] slots, slot [i] holding the decoder of member [i]'s type,
    or the absent marker when [primitiveUnpacker] knows none for it. *)
Theorem MakeUnpacker_strict_then_lenient
    (pkg : Package) (eng : H5T) (t : DynDatatype) (n : Z) :
  class t = T_COMPOUND pkg ->
  H5Tget_nmembers eng (t_id t) = n ->
  0 <= n ->
  (forall (i : nat) (e : error),
     Z.of_nat i < n ->
     MemberType pkg eng t (Z.of_nat i) = Err e ->
     (forall j, (j < i)%nat -> exists mt, MemberType pkg eng t (Z.of_nat j) = Ok mt) ->
     MakeUnpacker pkg eng t = Returns (Err e)) /\
  (forall (i : nat) (e : error),
     Z.of_nat i < n ->
     MemberType pkg eng t (Z.of_nat i) = Err e ->
     exists (j : nat) (e' : error),
       Z.of_nat j < n /\
       MemberType pkg eng t (Z.of_nat j) = Err e' /\
       MakeUnpacker pkg eng t = Returns (Err e')) /\
  ((forall i : nat, Z.of_nat i < n ->
      exists mt, MemberType pkg eng t (Z.of_nat i) = Ok mt) ->
   exists u : Unpacker,
     MakeUnpacker pkg eng t = Returns (Ok u) /\
     Z.of_nat (length (unpackers u)) = n /\
     forall (i : nat) (mt : DynDatatype),
       Z.of_nat i < n ->
       MemberType pkg eng t (Z.of_nat i) = Ok mt ->
       unpackers u !! i
         = Some (match primitiveUnpacker pkg eng mt with
                 | Ok f => Some f
                 | Err _ => None
                 end)).
Proof.
  intros Hcls Hn Hpos.
  assert (Hmake : MakeUnpacker pkg eng t
                  = Returns (match resolve_slots pkg eng t (seq 0 (Z.to_nat n)) with
                             | Ok slots => Ok (mkUnpacker slots)
                             | Err e => Err e
                             end)).
  { unfold MakeUnpacker, NMembers. rewrite Hcls, Z.eqb_refl. cbn [negb].
    rewrite Hn. destruct (Z.ltb_spec n 0) as [|_]; [lia|].
    f_equal. exact (MakeUnpacker_loop_resolve pkg eng t (Z.to_nat n) 0 [] eq_refl). }
  split; [|split].
  - intros i e Hi Hfail Hbefore. rewrite Hmake.
    rewrite (resolve_slots_first_failure pkg eng t (Z.to_nat n) 0 i e);
      [reflexivity|lia|exact Hfail|].
    intros j Hj. apply Hbefore. lia.
  - intros i e Hi Hfail. rewrite Hmake.
    destruct (resolve_slots pkg eng t (seq 0 (Z.to_nat n))) as [slots|e'] eqn:Hres.
    + destruct (resolve_slots_ok_all pkg eng t (Z.to_nat n) 0 slots Hres i ltac:(lia))
        as [mt Hmt].
      congruence.
    + destruct (resolve_slots_err_inv pkg eng t (Z.to_nat n) 0 e' Hres) as (j & Hj & Hj').
      exists j, e'. split; [lia|]. split; [exact Hj'|reflexivity].
  - intros Hall.
    destruct (resolve_slots_ok pkg eng t (Z.to_nat n) 0) as [slots Hslots].
    { intros j Hj. apply Hall. lia. }
    exists (mkUnpacker slots). rewrite Hmake, Hslots.
    destruct (resolve_slots_ok_inv pkg eng t (Z.to_nat n) 0 slots Hslots) as [Hlen Hget].
    split; [reflexivity|]. split; [cbn; lia|].
    intros i mt Hi Hmt. cbn [unpackers].
    rewrite (Hget i mt); [reflexivity|lia|exact Hmt].
Qed.

Lemma MakeUnpacker_strict_then_lenient_witness :
  (exists u : Unpacker,
     MakeUnpacker sample_pkg sample_H5T sample_compound = Returns (Ok u) /\
     Z.of_nat (length (unpackers u)) = 3 /\
     unpackers u !! 0%nat = Some (Some longUnpacker) /\
     unpackers u !! 1%nat = Some None) /\
  MakeUnpacker sample_pkg sample_H5T sample_broken_compound
    = Returns (Err (h5error (-1))).
Proof.
  split.
  - destruct (MakeUnpacker_strict_then_lenient sample_pkg sample_H5T sample_compound 3
                eq_refl eq_refl ltac:(lia)) as [_ [_ Hok]].
    destruct Hok as [u [Hu [Hlen Hslots]]].
    { intros [|[|[|i]]] Hi; [eexists; reflexivity ..|lia]. }
    exists u. split; [exact Hu|]. split; [exact Hlen|]. split.
    + exact (Hslots 0%nat (NewDynDatatype sample_H5T 11) ltac:(lia) eq_refl).
    + exact (Hslots 1%nat (NewDynDatatype sample_H5T 12) ltac:(lia) eq_refl).
  - destruct (MakeUnpacker_strict_then_lenient sample_pkg sample_H5T
                sample_broken_compound 2 eq_refl eq_refl ltac:(lia)) as [Hfail _].
    apply (Hfail 1%nat (h5error (-1))); [lia|reflexivity|].
    intros [|j] Hj; [eexists; reflexivity|lia].
Defined.

(** C3 (the failing descriptor).  A compound descriptor that was closed is
    still compound, its handle is 0, and the engine reports the member
    count -1 for it: [MakeUnpacker] then neither returns an error nor an
    [Unpacker], it panics in [make].  The same holds of every compound
    descriptor for which the engine reports a negative member count:
    [NMembers] hands that count on as if it were one, where [MemberType]
    turns a negative status of the engine into an error. *)
Theorem MakeUnpacker_panics_on_closed_compound :
  Close sample_pkg sim_engine sample_compound (mkWorld (mkSim [1] false 0 0 4096) [])
  = (Returns (None, closed_compound),
     mkWorld (mkSim [] false 0 0 4096) [ev_H5Tclose 1 0]) /\
  class closed_compound = T_COMPOUND sample_pkg /\
  NMembers sample_pkg sample_H5T closed_compound = Ok (-1) /\
  MakeUnpacker sample_pkg sample_H5T closed_compound = Panics /\
  (forall (pkg : Package) (eng : H5T) (t : DynDatatype),
     class t = T_COMPOUND pkg ->
     H5Tget_nmembers eng (t_id t) < 0 ->
     MakeUnpacker pkg eng t = Panics).
Proof.
  split; [reflexivity|]. split; [reflexivity|]. split; [reflexivity|].
  split; [reflexivity|].
  intros pkg eng t Hcls Hneg. unfold MakeUnpacker, NMembers.
  rewrite Hcls, Z.eqb_refl. cbn [negb].
  destruct (Z.ltb_spec (H5Tget_nmembers eng (t_id t)) 0); [reflexivity|lia].
Qed.

(** ** Member accessors on a type that is not compound *)

(** C6, as stated, fails: on the integer-class descriptor of the sample
    engine [MemberName] returns the empty text and [MemberOffset] returns 0;
    neither fails with a not-compound error. *)
Lemma member_name_offset_return_on_non_compound :
  class sample_integer <> T_COMPOUND sample_pkg /\
  call_accessor sample_pkg sample_H5T sample_integer (acc_MemberName 0)
    = Ok (ans_text EmptyString) /\
  call_accessor sample_pkg sample_H5T sample_integer (acc_MemberOffset 0)
    = Ok (ans_int 0) /\
  ~ (forall a : accessor,
       not_compound_error (call_accessor sample_pkg sample_H5T sample_integer a)).
Proof.
  split; [discriminate|]. split; [reflexivity|]. split; [reflexivity|].
  intros H. destruct (H (acc_MemberName 0)) as [code Hcode]. discriminate.
Qed.

(** C6, amended.  On a descriptor whose class is not compound, [NMembers]
    fails with the not-compound error 7301 and [MemberType] with 7302 at
    every index; [MemberName] and [MemberOffset] test no class and have no
    error result: they return what the engine reports for the handle and
    index, the same for every class tag. *)
Theorem accessors_on_non_compound
    (pkg : Package) (eng : H5T) (t : DynDatatype) (i : Z) :
  class t <> T_COMPOUND pkg ->
  call_accessor pkg eng t acc_NMembers = Err (dynamic_error 7301) /\
  call_accessor pkg eng t (acc_MemberType i) = Err (dynamic_error 7302) /\
  call_accessor pkg eng t (acc_MemberName i)
    = Ok (ans_text (C_GoString (H5Tget_member_name eng (t_id t) (to_c_uint i)))) /\
  call_accessor pkg eng t (acc_MemberOffset i)
    = Ok (ans_int (wrap_int (H5Tget_member_offset eng (t_id t) (to_c_uint i)))) /\
  (forall cls : TypeClass,
     MemberName eng (mkDynDatatype (DynDatatype_Location t) cls) i = MemberName eng t i /\
     MemberOffset eng (mkDynDatatype (DynDatatype_Location t) cls) i = MemberOffset eng t i).
Proof.
  intros Hcls.
  assert (Hneq : (class t =? T_COMPOUND pkg) = false) by now apply Z.eqb_neq.
  cbn [call_accessor]. unfold NMembers, MemberType. rewrite Hneq. cbn [negb].
  repeat split; reflexivity.
Qed.

Lemma accessors_on_non_compound_witness :
  call_accessor sample_pkg sample_H5T sample_integer acc_NMembers
    = Err (dynamic_error 7301) /\
  call_accessor sample_pkg sample_H5T sample_integer (acc_MemberType 0)
    = Err (dynamic_error 7302).
Proof.
  destruct (accessors_on_non_compound sample_pkg sample_H5T sample_integer 0
              ltac:(discriminate)) as [Hn [Ht _]].
  split; [exact Hn | exact Ht].
Defined.

(** ** Close *)

Section CloseFacts.

Context {St : Type}.
Variable pkg : Package.
Variable eng : Engine St.

Lemma Close_returns (t : DynDatatype) (w : World St) :
  exists err t' w',
    Close pkg eng t w = (Returns (err, t'), w') /\ t_id t' <= 0 /\ class t' = class t.
Proof.
  unfold Close. destruct (Z.gtb_spec (t_id t) 0) as [Hpos|Hnon].
  - unfold bind, C_H5Tclose, call.
    destruct (H5Tclose eng (t_id t) (engine_state w)) as [rc s'].
    eexists _, _, _. split; [reflexivity|]. cbn. split; [lia|reflexivity].
  - eexists _, _, _. split; [reflexivity|]. split; [lia|reflexivity].
Qed.

Lemma Close_leaves_closed (t t' : DynDatatype) (w w' : World St) (err : option error) :
  Close pkg eng t w = (Returns (err, t'), w') -> t_id t' <= 0.
Proof.
  intros H. destruct (Close_returns t w) as (e & t1 & w1 & Heq & Hid & _).
  rewrite Heq in H. injection H as <- <- <-. exact Hid.
Qed.

Lemma Close_closed (t : DynDatatype) (w : World St) :
  t_id t <= 0 -> Close pkg eng t w = (Returns (None, t), w).
Proof.
  intros Hid. unfold Close.
  destruct (Z.gtb_spec (t_id t) 0) as [Hpos|_]; [lia|reflexivity].
Qed.

End CloseFacts.

(** C9.  After a [Close] that returned no error, a second [Close] of the
    same descriptor returns no error and does not panic, and it leaves the
    descriptor, the engine state and the trace of engine calls as they
    were: no second [H5Tclose] is issued.  The finalizer, which panics on
    an error of [Close], returns as well. *)
Theorem Close_idempotent {St : Type} (pkg : Package) (eng : Engine St)
    (t t1 : DynDatatype) (w w1 : World St) :
  Close pkg eng t w = (Returns (None, t1), w1) ->
  Close pkg eng t1 w1 = (Returns (None, t1), w1) /\
  finalizer pkg eng t1 w1 = (Returns t1, w1).
Proof.
  intros H1. pose proof (Close_leaves_closed pkg eng t t1 w w1 None H1) as Hid.
  pose proof (Close_closed pkg eng t1 w1 Hid) as H2.
  split; [exact H2|]. unfold finalizer, bind. now rewrite H2.
Qed.

Lemma Close_idempotent_witness :
  trace (snd (Close sample_pkg sim_engine sample_open_type (sim_world false 0)))
    = [ev_H5Tclose 5 0] /\
  Close sample_pkg sim_engine (mkDynDatatype (mkLocation 0) 6)
        (mkWorld (mkSim [] false 0 0 4096) [ev_H5Tclose 5 0])
    = (Returns (None, mkDynDatatype (mkLocation 0) 6),
       mkWorld (mkSim [] false 0 0 4096) [ev_H5Tclose 5 0]).
Proof.
  split; [reflexivity|].
  exact (proj1 (Close_idempotent sample_pkg sim_engine sample_open_type
                  (mkDynDatatype (mkLocation 0) 6) (sim_world false 0)
                  (mkWorld (mkSim [] false 0 0 4096) [ev_H5Tclose 5 0]) eq_refl)).
Defined.

(** ** Read *)

Lemma uintptr_add_step (b a c : Z) :
  uintptr_add (uintptr_add b a) (to_uintptr c) = uintptr_add b (a + c).
Proof.
  unfold uintptr_add, to_uintptr, wrap_unsigned.
  rewrite Zplus_mod_idemp_l, Zplus_mod_idemp_r. f_equal. lia.
Qed.

Lemma Read_loop_views (per : Z) (k : nat) :
  forall (j : nat) (b : Z) (pre : list DynPacket) (x : DynPacket),
    Read_loop per k (length pre) (uintptr_add b (Z.of_nat j * per))
              (pre ++ replicate k x)
    = pre ++ map (fun i => mkDynPacket
                             (mkSliceHeader (uintptr_add b (Z.of_nat i * per)) per per))
                 (seq j k).
Proof.
  induction k as [|k IH]; intros j b pre x; [reflexivity|].
  cbn [Read_loop replicate seq map].
  rewrite insert_app_r_alt by lia.
  replace (length pre - length pre)%nat with 0%nat by lia. cbn [insert list_insert].
  rewrite uintptr_add_step.
  replace (Z.of_nat j * per + per) with (Z.of_nat (S j) * per) by lia.
  set (v := mkDynPacket (mkSliceHeader (uintptr_add b (Z.of_nat j * per)) per per)).
  replace (pre ++ v :: replicate k x) with ((pre ++ [v]) ++ replicate k x)
    by now rewrite <- app_assoc.
  replace (S (length pre)) with (length (pre ++ [v]))
    by (rewrite length_app; cbn; lia).
  rewrite IH. now rewrite <- app_assoc.
Qed.

Lemma packet_views_length (buf per : Z) (n : nat) :
  length (packet_views buf per n) = n.
Proof. unfold packet_views. now rewrite length_map, length_seq. Qed.

Lemma packet_views_lookup (buf per : Z) (n i : nat) :
  (i < n)%nat ->
  packet_views buf per n !! i
    = Some (mkDynPacket (mkSliceHeader (uintptr_add buf (Z.of_nat i * per)) per per)).
Proof.
  intros Hi. unfold packet_views. rewrite list_lookup_fmap.
  now rewrite lookup_seq_lt.
Qed.

Section ReadFacts.

Context {St : Type}.
Variable pkg : Package.
Variable eng : Engine St.

(** [Read] once the count it settles on is known to be [n]. *)
Lemma Read_unfold (rdr : TableReader) (num n1 n : Z) (w : World St) :
  (if int_mul num (bytesPerRecord rdr) >? bufferCap rdr
   then if bytesPerRecord rdr =? 0 then None
        else Some (int_div (bufferCap rdr) (bytesPerRecord rdr))
   else Some num) = Some n1 ->
  (if n1 >? remain rdr then wrap_int (remain rdr) else n1) = n ->
  Read pkg eng rdr num w
  = if n =? 0 then (Returns (([], None), rdr), w)
    else
      let r := H5PTget_next eng (id (Table_Location (source rdr))) (to_size_t n)
                            (buffer rdr) (engine_state w) in
      let w' := after_get_next rdr (to_size_t n) (fst r) (snd r) w in
      if fst r <? 0 then (Returns (([], h5err pkg (fst r)), rdr), w')
      else if n <? 0 then (Panics, w')
      else (Returns ((packet_views (buffer rdr) (bytesPerRecord rdr) (Z.to_nat n), None),
                     set_remain rdr (int_sub (remain rdr) n)), w').
Proof.
  intros Hn1 Hn. unfold Read, bind.
  assert (Hfirst :
    (if int_mul num (bytesPerRecord rdr) >? bufferCap rdr
     then if bytesPerRecord rdr =? 0 then panic
          else ret (int_div (bufferCap rdr) (bytesPerRecord rdr))
     else ret num) w = (Returns n1, w)).
  { destruct (int_mul num (bytesPerRecord rdr) >? bufferCap rdr).
    - destruct (bytesPerRecord rdr =? 0); [discriminate|]. now injection Hn1 as <-.
    - now injection Hn1 as <-. }
  rewrite Hfirst, Hn.
  destruct (n =? 0); [reflexivity|].
  unfold C_H5PTget_next, call, after_get_next.
  destruct (H5PTget_next eng (id (Table_Location (source rdr))) (to_size_t n)
                         (buffer rdr) (engine_state w)) as [rc s'].
  cbn [fst snd]. destruct (rc <? 0); [reflexivity|].
  destruct (n <? 0); [reflexivity|].
  unfold ret. cbn [bytesPerRecord buffer set_remain].
  do 2 f_equal.
  pose proof (Read_loop_views (bytesPerRecord rdr) (Z.to_nat n) 0 (buffer rdr) []
                              (mkDynPacket nil_slice)) as Hviews.
  cbn [length app] in Hviews.
  replace (uintptr_add (buffer rdr) (Z.of_nat 0 * bytesPerRecord rdr))
    with (to_uintptr (buffer rdr)) in Hviews
    by (unfold uintptr_add; f_equal; lia).
  unfold packet_views. now rewrite Hviews.
Qed.

(** The count [Read] settles on, for a request that is not negative and
    whose byte size is a Go [int]. *)
Lemma Read_count_in_range (rdr : TableReader) (num : Z) :
  reader_ok rdr ->
  0 <= num ->
  num * bytesPerRecord rdr <= max_int ->
  exists n1,
    (if int_mul num (bytesPerRecord rdr) >? bufferCap rdr
     then if bytesPerRecord rdr =? 0 then None
          else Some (int_div (bufferCap rdr) (bytesPerRecord rdr))
     else Some num) = Some n1 /\
    (if n1 >? remain rdr then wrap_int (remain rdr) else n1) = clamp rdr num.
Proof.
  intros (Hper & Hcap & Hrem) Hnum Hbytes.
  unfold clamp, records_per_buffer.
  set (per := bytesPerRecord rdr) in *. set (cap := bufferCap rdr) in *.
  assert (Hmul : int_mul num per = num * per).
  { unfold int_mul. apply wrap_int_id. unfold min_int. nia. }
  assert (Hq : 0 <= cap / per <= cap).
  { split; [apply Z.div_pos; lia|]. apply Z.div_le_upper_bound; nia. }
  assert (Hdiv : int_div cap per = cap / per).
  { unfold int_div. rewrite Z.quot_div_nonneg by lia.
    apply wrap_int_id. unfold min_int. lia. }
  assert (Hfloor : num * per > cap <-> num > cap / per).
  { pose proof (Z.div_mod cap per ltac:(lia)) as Hdm.
    pose proof (Z.mod_pos_bound cap per ltac:(lia)) as Hmod.
    split; intros H; nia. }
  rewrite Hmul.
  destruct (Z.gtb_spec (num * per) cap) as [Hgt|Hle].
  - destruct (Z.eqb_spec per 0) as [|_]; [lia|].
    exists (int_div cap per). split; [reflexivity|]. rewrite Hdiv.
    assert (num > cap / per) by (apply Hfloor; lia).
    destruct (Z.gtb_spec (cap / per) (remain rdr)).
    + rewrite wrap_int_id by (unfold min_int; lia). lia.
    + lia.
  - exists num. split; [reflexivity|].
    assert (~ num > cap / per) by (intros H; apply Hfloor in H; lia).
    destruct (Z.gtb_spec num (remain rdr)).
    + rewrite wrap_int_id by (unfold min_int; lia). lia.
    + lia.
Qed.

Lemma clamp_range (rdr : TableReader) (num : Z) :
  reader_ok rdr -> 0 <= num ->
  0 <= clamp rdr num /\ clamp rdr num <= remain rdr /\ clamp rdr num <= max_int.
Proof.
  intros (Hper & Hcap & Hrem) Hnum. unfold clamp, records_per_buffer.
  assert (0 <= bufferCap rdr / bytesPerRecord rdr) by (apply Z.div_pos; lia).
  lia.
Qed.

End ReadFacts.

(** A request of [max_int] records: its byte size wraps to -32, passes the
    capacity test, and the count is cut to the records left only. *)
Lemma Read_overflowing_request (buf total : Z) (w : World sim) :
  0 < total <= max_int ->
  sim_fail (engine_state w) = false ->
  exists w',
    Read sample_pkg sim_engine (made_reader sample_table buf total) max_int w
    = (Returns ((packet_views buf 32 (Z.to_nat total), None),
                made_reader sample_table buf 0), w').
Proof.
  intros Htotal Hfail. eexists.
  assert (Hrem : remain (made_reader sample_table buf total) = total).
  { cbn. apply wrap_int_id. unfold min_int. lia. }
  rewrite (Read_unfold sample_pkg sim_engine (made_reader sample_table buf total)
             max_int max_int total w eq_refl).
  - destruct (Z.eqb_spec total 0) as [|_]; [lia|].
    cbn [sim_engine H5PTget_next fst snd]. rewrite Hfail. cbn [fst snd].
    destruct (Z.ltb_spec total 0) as [|_]; [lia|].
    rewrite Hrem. unfold int_sub. rewrite Z.sub_diag. reflexivity.
  - rewrite Hrem. destruct (Z.gtb_spec max_int total) as [_|Hle].
    + apply wrap_int_id. unfold min_int. lia.
    + lia.
Qed.

(** C2, as stated, fails.  With three records requested from a reader that
    has five left, the clamp is 3, yet when the engine's retrieval fails
    [Read] returns no view and the engine's error and leaves [remain] at 5.
    A request whose byte size overflows the Go [int] escapes the capacity
    test: with 40000 records left and [max_int] requested, [Read] cuts
    40000 views although only 31250 fit the buffer.  A negative request
    reaches [make] and panics. *)
Lemma Read_is_not_the_clamp_everywhere :
  (clamp sample_reader 3 = 3 /\
   Read sample_pkg sim_engine sample_reader 3 (sim_world true 5)
   = (Returns (([], Some (h5error (-1))), sample_reader),
      mkWorld (mkSim [5] true 5 0 4096) [ev_H5PTget_next 9 3 4096 (-1)]) /\
   remain sample_reader <> remain sample_reader - 3) /\
  (clamp (made_reader sample_table 4096 40000) max_int = 31250 /\
   exists w',
     Read sample_pkg sim_engine (made_reader sample_table 4096 40000) max_int
          (sim_world false 40000)
     = (Returns ((packet_views 4096 32 (Z.to_nat 40000), None),
                 made_reader sample_table 4096 0), w')) /\
  fst (Read sample_pkg sim_engine sample_reader (-1) (sim_world false 5)) = Panics.
Proof.
  split; [|split].
  - split; [reflexivity|]. split; [reflexivity|]. cbn. lia.
  - split; [reflexivity|].
    apply Read_overflowing_request; [unfold max_int; lia|reflexivity].
  - reflexivity.
Qed.

(** The count, the engine call and the views of [Read] for a request in
    range. *)
Lemma Read_in_range {St : Type} (pkg : Package) (eng : Engine St)
    (rdr : TableReader) (num : Z) (w : World St) :
  reader_ok rdr ->
  0 <= num ->
  num * bytesPerRecord rdr <= max_int ->
  (clamp rdr num = 0 ->
   Read pkg eng rdr num w = (Returns (([], None), rdr), w)) /\
  (clamp rdr num <> 0 ->
   exists (rc : Z) (s' : St),
     H5PTget_next eng (id (Table_Location (source rdr))) (clamp rdr num)
                  (buffer rdr) (engine_state w) = (rc, s') /\
     (rc < 0 ->
      Read pkg eng rdr num w
      = (Returns (([], h5err pkg rc), rdr),
         after_get_next rdr (clamp rdr num) rc s' w)) /\
     (0 <= rc ->
      exists vec : list DynPacket,
        Read pkg eng rdr num w
        = (Returns ((vec, None), set_remain rdr (remain rdr - clamp rdr num)),
           after_get_next rdr (clamp rdr num) rc s' w) /\
        Z.of_nat (length vec) = clamp rdr num /\
        forall i : nat,
          Z.of_nat i < clamp rdr num ->
          vec !! i
          = Some (mkDynPacket
                    (mkSliceHeader
                       (uintptr_add (buffer rdr) (Z.of_nat i * bytesPerRecord rdr))
                       (bytesPerRecord rdr) (bytesPerRecord rdr))))).
Proof.
  intros Hok Hnum Hbytes.
  destruct (Read_count_in_range rdr num Hok Hnum Hbytes) as (n1 & Hn1 & Hn).
  pose proof (Read_unfold pkg eng rdr num n1 (clamp rdr num) w Hn1 Hn) as HRead.
  destruct (clamp_range rdr num Hok Hnum) as (Hlo & Hrem & Hhi).
  destruct Hok as (Hper & Hcap & Hremain).
  split.
  - intros H0. rewrite HRead, H0. reflexivity.
  - intros Hne.
    assert (Hsize : to_size_t (clamp rdr num) = clamp rdr num).
    { unfold to_size_t, wrap_unsigned. apply Z.mod_small. unfold max_int in Hhi. lia. }
    rewrite Hsize in HRead.
    destruct (H5PTget_next eng (id (Table_Location (source rdr))) (clamp rdr num)
                           (buffer rdr) (engine_state w)) as [rc s'] eqn:Hcall.
    cbn [fst snd] in HRead.
    destruct (Z.eqb_spec (clamp rdr num) 0) as [|_]; [contradiction|].
    exists rc, s'. split; [reflexivity|]. split.
    + intros Hrc. destruct (Z.ltb_spec rc 0); [exact HRead|lia].
    + intros Hrc. destruct (Z.ltb_spec rc 0); [lia|].
      destruct (Z.ltb_spec (clamp rdr num) 0); [lia|].
      eexists. split.
      * rewrite HRead. unfold int_sub.
        rewrite wrap_int_id by (unfold min_int; lia). reflexivity.
      * split; [rewrite packet_views_length; lia|].
        intros i Hi. apply packet_views_lookup. lia.
Qed.

(** C2, amended.  For a request that is not negative and whose byte size
    [num * bytesPerRecord] is a Go [int], [Read] settles on
    [n = min(num, floor(bufferCap / bytesPerRecord), remain)].  When
    [n = 0] it returns the empty result and no error and touches neither
    the reader nor the engine.  Otherwise it asks the engine once for [n]
    records into the buffer; when that call fails it returns the engine's
    error, no view, and the reader as it was; when it succeeds it lowers
    [remain] by exactly [n] and returns exactly [n] views of
    [bytesPerRecord] bytes each, view [i] starting [i * bytesPerRecord]
    bytes into the buffer. *)
Theorem Read_delivers_clamped_count {St : Type} (pkg : Package) (eng : Engine St)
    (rdr : TableReader) (num : Z) (w : World St) :
  reader_ok rdr ->
  0 <= num ->
  num * bytesPerRecord rdr <= max_int ->
  (clamp rdr num = 0 ->
   Read pkg eng rdr num w = (Returns (([], None), rdr), w)) /\
  (clamp rdr num <> 0 ->
   exists (rc : Z) (s' : St),
     H5PTget_next eng (id (Table_Location (source rdr))) (clamp rdr num)
                  (buffer rdr) (engine_state w) = (rc, s') /\
     (rc < 0 ->
      Read pkg eng rdr num w
      = (Returns (([], h5err pkg rc), rdr),
         after_get_next rdr (clamp rdr num) rc s' w)) /\
     (0 <= rc ->
      exists vec : list DynPacket,
        Read pkg eng rdr num w
        = (Returns ((vec, None), set_remain rdr (remain rdr - clamp rdr num)),
           after_get_next rdr (clamp rdr num) rc s' w) /\
        Z.of_nat (length vec) = clamp rdr num /\
        forall i : nat,
          Z.of_nat i < clamp rdr num ->
          vec !! i
          = Some (mkDynPacket
                    (mkSliceHeader
                       (uintptr_add (buffer rdr) (Z.of_nat i * bytesPerRecord rdr))
                       (bytesPerRecord rdr) (bytesPerRecord rdr))))).
Proof. exact (Read_in_range pkg eng rdr num w). Qed.

Lemma Read_delivers_clamped_count_witness :
  Read sample_pkg sim_engine sample_reader 3 (sim_world true 5)
  = (Returns (([], Some (h5error (-1))), sample_reader),
     after_get_next sample_reader 3 (-1) (mkSim [5] true 5 0 4096) (sim_world true 5)) /\
  Read sample_pkg sim_engine (set_remain sample_reader 0) 3 (sim_world false 5)
  = (Returns (([], None), set_remain sample_reader 0), sim_world false 5).
Proof.
  assert (Hok : forall r, 0 <= r <= 5 -> reader_ok (set_remain sample_reader r)).
  { intros r Hr. unfold reader_ok, max_int. cbn. lia. }
  split.
  - destruct (Read_delivers_clamped_count sample_pkg sim_engine sample_reader 3
                (sim_world true 5) (Hok 5 ltac:(lia)) ltac:(lia)
                ltac:(unfold max_int; cbn; lia)) as [_ Hread].
    destruct (Hread ltac:(discriminate)) as (rc & s' & Hcall & Hfail & _).
    injection Hcall as <- <-. apply Hfail. lia.
  - destruct (Read_delivers_clamped_count sample_pkg sim_engine
                (set_remain sample_reader 0) 3 (sim_world false 5)
                (Hok 0 ltac:(lia)) ltac:(lia)
                ltac:(unfold max_int; cbn; lia)) as [Hzero _].
    apply Hzero. reflexivity.
Defined.

(** C10.  A reader that still has records left answers a request for zero
    records with the empty result and no error, the very pair an exhausted
    reader returns, and the reader, the engine state and the trace of
    engine calls (hence the buffer) stay as they were.  So an empty result
    does not tell that the table is exhausted. *)
Theorem Read_zero_request_is_empty {St : Type} (pkg : Package) (eng : Engine St)
    (rdr : TableReader) (w : World St) :
  0 <= bufferCap rdr ->
  0 < remain rdr ->
  Read pkg eng rdr 0 w = (Returns (([], None), rdr), w) /\
  Read pkg eng (set_remain rdr 0) 0 w
  = (Returns (([], None), set_remain rdr 0), w).
Proof.
  intros Hcap Hrem.
  assert (Hmul : forall per, int_mul 0 per = 0) by (intros per; reflexivity).
  assert (H1 : Read pkg eng rdr 0 w = (Returns (([], None), rdr), w)).
  { rewrite (Read_unfold pkg eng rdr 0 0 0 w).
    - reflexivity.
    - rewrite Hmul. destruct (Z.gtb_spec 0 (bufferCap rdr)); [lia|reflexivity].
    - destruct (Z.gtb_spec 0 (remain rdr)); [lia|reflexivity]. }
  split; [exact H1|].
  rewrite (Read_unfold pkg eng (set_remain rdr 0) 0 0 0 w).
  - reflexivity.
  - cbn [bytesPerRecord bufferCap set_remain]. rewrite Hmul.
    destruct (Z.gtb_spec 0 (bufferCap rdr)); [lia|reflexivity].
  - reflexivity.
Qed.

Lemma Read_zero_request_is_empty_witness :
  Read sample_pkg sim_engine sample_reader 0 (sim_world false 5)
  = (Returns (([], None), sample_reader), sim_world false 5).
Proof.
  apply (Read_zero_request_is_empty sample_pkg sim_engine sample_reader
           (sim_world false 5)); [vm_compute; discriminate | vm_compute; reflexivity].
Defined.

(** ** ReadPacketBytes *)

(** C8, as stated, fails.  For one record the buffer asked of [malloc] is
    1000000 bytes, not 24; for 50000000 records, whose 1200000000 bytes
    exceed the bound [1<<30] of the slice expression, a successful
    retrieval ends in a panic and no byte region is returned. *)
Lemma ReadPacketBytes_buffer_is_not_sized_by_count :
  ReadPacketBytes sim_engine sample_table 0 1 (sim_world false 5)
  = (Returns (mkSliceHeader 4096 24 24),
     mkWorld (mkSim [5] false 5 0 1004096)
             [ev_malloc 1000000 4096; ev_H5PTread_packets 9 0 1 4096 0]) /\
  1000000 <> 24 * 1 /\
  fst (ReadPacketBytes sim_engine sample_table 0 50000000 (sim_world false 5)) = Panics.
Proof. split; [reflexivity|]. split; [lia|reflexivity]. Qed.

(** C8, amended.  For every start and every count with [1 <= count] whose
    [24 * count] bytes fit the buffer of 1000000 bytes, [ReadPacketBytes]
    asks [malloc] for 1000000 bytes whatever the count is, and asks the
    engine once for [count] records from [start] into that buffer.  When
    the engine fails it frees the buffer and returns the nil slice, with
    nothing that tells the failure apart; when the engine succeeds it
    returns, without freeing it, the region that starts at the buffer,
    whose length and capacity are exactly [24 * count] bytes and which
    lies within the allocation. *)
Theorem ReadPacketBytes_fixed_buffer {St : Type} (eng : Engine St)
    (t : Table) (start count : Z) (w : World St) :
  1 <= count ->
  24 * count <= 1000000 ->
  exists (buf rc : Z) (s1 s2 : St),
    malloc eng 1000000 (engine_state w) = (buf, s1) /\
    H5PTread_packets eng (id (Table_Location t)) (to_hsize_t start) count buf s1
      = (rc, s2) /\
    (rc < 0 ->
     ReadPacketBytes eng t start count w
     = (Returns nil_slice,
        mkWorld (free eng buf s2)
                (trace w ++ [ev_malloc 1000000 buf;
                             ev_H5PTread_packets (id (Table_Location t))
                                                 (to_hsize_t start) count buf rc;
                             ev_free buf]))) /\
    (0 <= rc ->
     ReadPacketBytes eng t start count w
     = (Returns (mkSliceHeader buf (24 * count) (24 * count)),
        mkWorld s2
                (trace w ++ [ev_malloc 1000000 buf;
                             ev_H5PTread_packets (id (Table_Location t))
                                                 (to_hsize_t start) count buf rc])) /\
     Len (mkSliceHeader buf (24 * count) (24 * count)) <= 1000000).
Proof.
  intros Hcount Hbytes.
  assert (Hsize : to_size_t count = count).
  { unfold to_size_t, wrap_unsigned. apply Z.mod_small. lia. }
  assert (Hmul : int_mul count 24 = 24 * count).
  { unfold int_mul. rewrite wrap_int_id; [lia|]. unfold min_int, max_int. lia. }
  unfold ReadPacketBytes, bind, C_malloc, C_H5PTread_packets, C_free, call, ret, panic.
  rewrite Hsize, Hmul.
  destruct (malloc eng 1000000 (engine_state w)) as [buf s1] eqn:Hm.
  cbn [engine_state trace].
  destruct (H5PTread_packets eng (id (Table_Location t)) (to_hsize_t start) count buf s1)
    as [rc s2] eqn:Hr.
  exists buf, rc, s1, s2. split; [reflexivity|]. split; [exact Hr|]. split.
  - intros Hrc. destruct (Z.ltb_spec rc 0); [|lia].
    cbn [engine_state trace]. rewrite <- !app_assoc. reflexivity.
  - intros Hrc. destruct (Z.ltb_spec rc 0); [lia|].
    destruct (Z.ltb_spec (24 * count) 0); [lia|].
    destruct (Z.gtb_spec (24 * count) (2 ^ 30)); [lia|].
    cbn [orb engine_state trace Len]. rewrite <- !app_assoc.
    split; [reflexivity|exact Hbytes].
Qed.

Lemma ReadPacketBytes_fixed_buffer_witness :
  ReadPacketBytes sim_engine sample_table 7 2 (sim_world true 5)
  = (Returns nil_slice,
     mkWorld (mkSim [5] true 5 0 1004096)
             [ev_malloc 1000000 4096; ev_H5PTread_packets 9 7 2 4096 (-1);
              ev_free 4096]).
Proof.
  destruct (ReadPacketBytes_fixed_buffer sim_engine sample_table 7 2 (sim_world true 5)
              ltac:(lia) ltac:(lia)) as (buf & rc & s1 & s2 & Hm & Hr & Hfail & _).
  injection Hm as <- <-. injection Hr as <- <-. apply Hfail. lia.
Defined.

(** ** The pull loop over a reader *)

Section PullFacts.

Context {St : Type}.
Variable pkg : Package.
Variable eng : Engine St.

Lemma pulls_stop (fuel : nat) (rdr rdr' : TableReader) (num : Z) (w w' : World St) :
  Read pkg eng rdr num w = (Returns (([], None), rdr'), w') ->
  pulls pkg eng (S fuel) rdr num w = [0].
Proof. intros H. cbn [pulls]. now rewrite H. Qed.

Lemma pulls_step (fuel : nat) (rdr rdr' : TableReader) (num : Z) (w w' : World St)
    (vec : list DynPacket) :
  Read pkg eng rdr num w = (Returns ((vec, None), rdr'), w') ->
  (0 < length vec)%nat ->
  pulls pkg eng (S fuel) rdr num w
  = Z.of_nat (length vec) :: pulls pkg eng fuel rdr' num w'.
Proof.
  intros H Hlen. cbn [pulls]. rewrite H.
  destruct vec; [cbn in Hlen; lia|reflexivity].
Qed.

Lemma expected_pulls_empty (k : Z) : 0 < k -> expected_pulls 0 k = [0].
Proof.
  intros Hk. unfold expected_pulls.
  rewrite Z.div_0_l, Z.mod_0_l by lia. reflexivity.
Qed.

Lemma expected_pulls_rest (r k : Z) :
  0 < r < k -> expected_pulls r k = [r; 0].
Proof.
  intros Hr. unfold expected_pulls.
  rewrite Z.div_small, Z.mod_small by lia.
  destruct (Z.eqb_spec r 0); [lia|reflexivity].
Qed.

Lemma expected_pulls_full (r k : Z) :
  0 < k <= r -> expected_pulls r k = k :: expected_pulls (r - k) k.
Proof.
  intros Hr.
  assert (Hdiv : r / k = (r - k) / k + 1).
  { replace r with ((r - k) + 1 * k) at 1 by lia. apply Z.div_add. lia. }
  assert (Hmod : r mod k = (r - k) mod k).
  { replace r with ((r - k) + 1 * k) at 1 by lia. apply Z_mod_plus_full. }
  assert (0 <= (r - k) / k) by (apply Z.div_pos; lia).
  unfold expected_pulls. rewrite Hdiv, Hmod.
  replace (Z.to_nat ((r - k) / k + 1)) with (S (Z.to_nat ((r - k) / k))) by lia.
  reflexivity.
Qed.

(** With an engine whose retrievals succeed and a request that is at least
    a buffer's worth and whose byte size is a Go [int], the pull loop
    yields the pulls the specification expects. *)
Lemma pulls_in_range (num : Z) :
  (forall i n buf s, 0 <= fst (H5PTget_next eng i n buf s)) ->
  forall (fuel : nat) (rdr : TableReader) (w : World St),
    reader_ok rdr ->
    1 <= records_per_buffer rdr <= num ->
    num * bytesPerRecord rdr <= max_int ->
    (Z.to_nat (remain rdr / records_per_buffer rdr) + 2 <= fuel)%nat ->
    pulls pkg eng fuel rdr num w
    = expected_pulls (remain rdr) (records_per_buffer rdr).
Proof.
  intros Heng fuel. induction fuel as [|fuel IH]; intros rdr w Hok Hk Hbytes Hfuel; [lia|].
  assert (Hnum : 0 <= num) by lia.
  destruct (Read_in_range pkg eng rdr num w Hok Hnum Hbytes)
    as [Hzero Hmore].
  pose proof Hok as (Hper & Hcap & Hrem).
  set (k := records_per_buffer rdr) in *.
  destruct (Z.eq_dec (remain rdr) 0) as [H0|Hne].
  - rewrite (pulls_stop fuel rdr rdr num w w).
    + rewrite H0. symmetry. apply expected_pulls_empty. lia.
    + apply Hzero. unfold clamp. fold k. lia.
  - assert (Hclamp : clamp rdr num = Z.min k (remain rdr)) by (unfold clamp; fold k; lia).
    destruct (Hmore ltac:(lia)) as (rc & s' & Hcall & _ & Hsucc).
    assert (Hrc : 0 <= rc).
    { specialize (Heng (id (Table_Location (source rdr))) (clamp rdr num)
                       (buffer rdr) (engine_state w)).
      now rewrite Hcall in Heng. }
    destruct (Hsucc Hrc) as (vec & HRead & Hlen & _).
    rewrite (pulls_step fuel rdr _ num w _ vec HRead) by lia.
    set (rdr' := set_remain rdr (remain rdr - clamp rdr num)).
    set (w' := after_get_next rdr (clamp rdr num) rc s' w).
    rewrite Hlen, Hclamp.
    assert (Hk' : records_per_buffer rdr' = k) by reflexivity.
    assert (Hbytes' : num * bytesPerRecord rdr' <= max_int) by exact Hbytes.
    assert (Hok' : reader_ok rdr').
    { unfold reader_ok, rdr'. cbn [bytesPerRecord bufferCap remain set_remain]. lia. }
    destruct (Z_lt_le_dec (remain rdr) k) as [Hlt|Hge].
    + rewrite Z.min_r by lia. rewrite expected_pulls_rest by lia.
      f_equal.
      assert (Hrem' : remain rdr' = 0).
      { unfold rdr'. cbn [remain set_remain]. lia. }
      clearbody rdr' w'.
      destruct fuel as [|fuel]; [lia|].
      rewrite (pulls_stop fuel rdr' rdr' num w' w'); [reflexivity|].
      destruct (Read_in_range pkg eng rdr' num w' Hok' Hnum Hbytes')
        as [Hzero' _].
      apply Hzero'. unfold clamp. rewrite Hk', Hrem'. lia.
    + rewrite Z.min_l by lia. rewrite expected_pulls_full by lia.
      f_equal.
      assert (Hrem' : remain rdr' = remain rdr - k).
      { unfold rdr'. cbn [remain set_remain]. lia. }
      rewrite IH; [now rewrite Hk', Hrem'|exact Hok'|now rewrite Hk'|exact Hbytes'|].
      rewrite Hk', Hrem'.
      replace (remain rdr) with ((remain rdr - k) + 1 * k) in Hfuel by lia.
      rewrite Z.div_add in Hfuel by lia.
      assert (0 <= (remain rdr - k) / k) by (apply Z.div_pos; lia).
      lia.
Qed.

End PullFacts.

Lemma total_records_app (xs ys : list Z) :
  total_records (xs ++ ys) = total_records xs + total_records ys.
Proof.
  unfold total_records. induction xs as [|x xs IH]; [reflexivity|].
  cbn [app fold_right]. rewrite IH. lia.
Qed.

Lemma total_records_replicate (n : nat) (k : Z) :
  total_records (replicate n k) = Z.of_nat n * k.
Proof.
  unfold total_records. induction n as [|n IH]; [reflexivity|].
  cbn [replicate fold_right]. rewrite IH. lia.
Qed.

Lemma ceil_div_cases (r k : Z) :
  0 <= r -> 0 < k ->
  ceil_div r k = r / k + (if r mod k =? 0 then 0 else 1).
Proof.
  intros Hr Hk. unfold ceil_div.
  pose proof (Z.div_mod r k ltac:(lia)) as Hdm.
  pose proof (Z.mod_pos_bound r k Hk) as Hm.
  replace (r + k - 1) with ((r mod k + k - 1) + (r / k) * k) by lia.
  rewrite Z.div_add by lia.
  destruct (Z.eqb_spec (r mod k) 0) as [H0|Hne].
  - rewrite H0, Z.div_small by lia. lia.
  - replace (r mod k + k - 1) with ((r mod k - 1) + 1 * k) by lia.
    rewrite Z.div_add, Z.div_small by lia. lia.
Qed.

(** The shape the specification gives to a stream: [ceil(r / k)] pulls
    that are not empty, none larger than the one before, then the empty
    pull, and [r] records in all. *)
Lemma expected_pulls_shape (r k : Z) :
  0 <= r -> 0 < k ->
  expected_pulls r k = nonempty_pulls r k ++ [0] /\
  Forall (fun size => 0 < size) (nonempty_pulls r k) /\
  Z.of_nat (length (nonempty_pulls r k)) = ceil_div r k /\
  non_increasing (nonempty_pulls r k) /\
  total_records (expected_pulls r k) = r.
Proof.
  intros Hr Hk.
  pose proof (Z.div_mod r k ltac:(lia)) as Hdm.
  pose proof (Z.mod_pos_bound r k Hk) as Hm.
  assert (Hq : 0 <= r / k) by (apply Z.div_pos; lia).
  split; [unfold expected_pulls, nonempty_pulls; now rewrite app_assoc|].
  split; [|split; [|split]].
  - unfold nonempty_pulls. apply Forall_app. split.
    + apply Forall_replicate. lia.
    + destruct (Z.eqb_spec (r mod k) 0); [constructor|].
      constructor; [lia|constructor].
  - rewrite ceil_div_cases by lia. unfold nonempty_pulls.
    rewrite length_app, length_replicate.
    destruct (r mod k =? 0); cbn [length]; lia.
  - unfold nonempty_pulls. intros i a b Ha Hb.
    set (n := Z.to_nat (r / k)) in *.
    assert (Hb' : b <= k).
    { destruct (decide (S i < n)%nat) as [Hlt|Hge].
      - rewrite lookup_app_l in Hb by (rewrite length_replicate; lia).
        apply lookup_replicate in Hb. lia.
      - rewrite lookup_app_r in Hb by (rewrite length_replicate; lia).
        destruct (r mod k =? 0); [discriminate|].
        destruct (S i - length (replicate n k))%nat; [|discriminate].
        cbn in Hb. injection Hb as <-. lia. }
    assert (Hi : (i < n)%nat).
    { apply lookup_lt_Some in Hb. rewrite length_app, length_replicate in Hb.
      destruct (r mod k =? 0); cbn [length] in Hb; lia. }
    rewrite lookup_app_l in Ha by (rewrite length_replicate; lia).
    apply lookup_replicate in Ha. lia.
  - unfold expected_pulls. rewrite !total_records_app, total_records_replicate.
    destruct (Z.eqb_spec (r mod k) 0); cbn [total_records fold_right]; lia.
Qed.

Lemma made_reader_ok (t : Table) (buf total : Z) :
  0 <= total <= max_int -> reader_ok (made_reader t buf total).
Proof.
  intros Htotal. unfold reader_ok, made_reader.
  cbn [bytesPerRecord bufferCap remain].
  rewrite wrap_int_id by (unfold min_int; lia). unfold max_int in *. lia.
Qed.

(** Every reader [MakeTableReader] returns has the fixed width 32 and the
    fixed capacity 1000000. *)
Lemma MakeTableReader_reader {St : Type} (pkg : Package) (eng : Engine St)
    (t : Table) (w w' : World St) (rdr : TableReader) (err : option error) :
  MakeTableReader pkg eng t w = (Returns (Some rdr, err), w') ->
  exists buf total, rdr = made_reader t buf total.
Proof.
  unfold MakeTableReader, bind, Table_CreateIndex, C_H5PTget_num_packets, C_malloc,
    call, ret.
  destruct (CreateIndex eng t (engine_state w)) as [[e|] s1]; [discriminate|].
  cbn [engine_state trace].
  destruct (H5PTget_num_packets eng (id (Table_Location t)) s1) as [[rc total] s2].
  cbn [fst snd engine_state trace].
  destruct (rc <? 0); [discriminate|].
  cbn [engine_state trace].
  destruct (malloc eng (to_size_t 1000000) s2) as [buf s3].
  intros H. inversion H. now exists buf, total.
Qed.

(** The stream of a reader made by [MakeTableReader], for an engine whose
    retrievals succeed and a request between a buffer's worth and the
    largest count whose byte size is a Go [int]. *)
Lemma stream_exhaustion_in_range {St : Type} (pkg : Package) (eng : Engine St)
    (t : Table) (buf total num : Z) (fuel : nat) (w : World St) :
  (forall i n b s, 0 <= fst (H5PTget_next eng i n b s)) ->
  0 <= total <= max_int ->
  31250 <= num ->
  num * 32 <= max_int ->
  (Z.to_nat (total / 31250) + 2 <= fuel)%nat ->
  pulls pkg eng fuel (made_reader t buf total) num w
  = nonempty_pulls total 31250 ++ [0] /\
  Forall (fun size => 0 < size) (nonempty_pulls total 31250) /\
  Z.of_nat (length (nonempty_pulls total 31250)) = ceil_div total 31250 /\
  non_increasing (nonempty_pulls total 31250) /\
  total_records (pulls pkg eng fuel (made_reader t buf total) num w) = total.
Proof.
  intros Heng Htotal Hnum Hbytes Hfuel.
  assert (Hrem : remain (made_reader t buf total) = total).
  { cbn. apply wrap_int_id. unfold min_int. lia. }
  assert (Hk : records_per_buffer (made_reader t buf total) = 31250) by reflexivity.
  assert (Hpulls : pulls pkg eng fuel (made_reader t buf total) num w
                   = expected_pulls total 31250).
  { rewrite (pulls_in_range pkg eng num Heng fuel (made_reader t buf total) w).
    - now rewrite Hrem, Hk.
    - now apply made_reader_ok.
    - rewrite Hk. lia.
    - exact Hbytes.
    - now rewrite Hrem, Hk. }
  destruct (expected_pulls_shape total 31250 ltac:(lia) ltac:(lia))
    as (Hshape & Hpos & Hcount & Hmono & Hsum).
  rewrite Hpulls. repeat split; assumption.
Qed.

(** The end-to-end scenario of the specification: 23 records, ten per
    pull. *)
Example pulls_23_by_10 :
  pulls sample_pkg sim_engine 5 (mkTableReader sample_table 32 4096 320 23) 10
        (sim_world false 23)
  = [10; 10; 3; 0].
Proof. reflexivity. Qed.

(** C4 (the failing stream).  [MakeTableReader] on a table of 40000 records
    makes a reader of 1000000 bytes and 32-byte records, 31250 records per
    buffer.  Pulled with a request of [max_int] records, which is at least
    31250, the reader yields one pull of 40000 records and then the empty
    pull, where the specification expects the pulls 31250 and 8750 before
    the empty one. *)
Theorem stream_pulls_overflowing_request :
  MakeTableReader sample_pkg sim_engine sample_table (sim_world false 40000)
  = (Returns (Some (made_reader sample_table 4096 40000), None), made_world 40000) /\
  records_per_buffer (made_reader sample_table 4096 40000) = 31250 /\
  31250 <= max_int /\
  pulls sample_pkg sim_engine 3 (made_reader sample_table 4096 40000) max_int
        (made_world 40000)
  = [40000; 0] /\
  expected_pulls 40000 31250 = [31250; 8750; 0].
Proof.
  split; [reflexivity|]. split; [reflexivity|].
  split; [unfold max_int; lia|]. split; [|reflexivity].
  destruct (Read_overflowing_request 4096 40000 (made_world 40000)
              ltac:(unfold max_int; lia) eq_refl) as [w2 HRead].
  rewrite (pulls_step sample_pkg sim_engine 2 _ _ max_int (made_world 40000) w2 _ HRead)
    by (rewrite packet_views_length; lia).
  rewrite packet_views_length.
  rewrite (pulls_stop sample_pkg sim_engine 1 (made_reader sample_table 4096 0)
             (made_reader sample_table 4096 0) max_int w2 w2).
  - reflexivity.
  - now rewrite (Read_unfold sample_pkg sim_engine (made_reader sample_table 4096 0)
                   max_int max_int 0 w2 eq_refl eq_refl).
Qed.

(** * Further properties *)

(** ** MakeUnpacker: what it returns and when *)

Lemma MakeUnpacker_compound (pkg : Package) (eng : H5T) (t : DynDatatype) :
  class t = T_COMPOUND pkg ->
  0 <= H5Tget_nmembers eng (t_id t) ->
  MakeUnpacker pkg eng t
  = Returns (match resolve_slots pkg eng t
                     (seq 0 (Z.to_nat (H5Tget_nmembers eng (t_id t)))) with
             | Ok slots => Ok (mkUnpacker slots)
             | Err e => Err e
             end).
Proof.
  intros Hcls Hn. unfold MakeUnpacker, NMembers. rewrite Hcls, Z.eqb_refl. cbn [negb].
  destruct (Z.ltb_spec (H5Tget_nmembers eng (t_id t)) 0) as [|_]; [lia|].
  f_equal.
  exact (MakeUnpacker_loop_resolve pkg eng t
           (Z.to_nat (H5Tget_nmembers eng (t_id t))) 0 [] eq_refl).
Qed.

Lemma MakeUnpacker_Ok_inv (pkg : Package) (eng : H5T) (t : DynDatatype) (u : Unpacker) :
  MakeUnpacker pkg eng t = Returns (Ok u) ->
  class t = T_COMPOUND pkg /\
  0 <= H5Tget_nmembers eng (t_id t) /\
  resolve_slots pkg eng t (seq 0 (Z.to_nat (H5Tget_nmembers eng (t_id t))))
  = Ok (unpackers u).
Proof.
  intros H.
  destruct (Z.eqb_spec (class t) (T_COMPOUND pkg)) as [Hcls|Hcls].
  - destruct (Z.ltb_spec (H5Tget_nmembers eng (t_id t)) 0) as [Hneg|Hpos].
    + unfold MakeUnpacker, NMembers in H. rewrite Hcls, Z.eqb_refl in H. cbn [negb] in H.
      destruct (Z.ltb_spec (H5Tget_nmembers eng (t_id t)) 0); [discriminate|lia].
    + rewrite (MakeUnpacker_compound pkg eng t Hcls Hpos) in H.
      split; [exact Hcls|]. split; [exact Hpos|].
      destruct (resolve_slots pkg eng t _) as [slots|e]; [|discriminate].
      now injection H as <-.
  - unfold MakeUnpacker in H. apply Z.eqb_neq in Hcls. rewrite Hcls in H. discriminate.
Qed.

(** X1.  [MakeUnpacker] panics exactly on a compound descriptor whose member
    count the engine reports as negative; on a descriptor that is not
    compound it returns the error 7304 whatever the engine says; and an
    [Unpacker] comes back only for a compound descriptor with a member
    count [n >= 0], and then has [n] slots. *)
Theorem MakeUnpacker_outcomes (pkg : Package) (eng : H5T) (t : DynDatatype) :
  (MakeUnpacker pkg eng t = Panics <->
   class t = T_COMPOUND pkg /\ H5Tget_nmembers eng (t_id t) < 0) /\
  (class t <> T_COMPOUND pkg ->
   MakeUnpacker pkg eng t = Returns (Err (dynamic_error 7304))) /\
  (forall u : Unpacker,
     MakeUnpacker pkg eng t = Returns (Ok u) ->
     class t = T_COMPOUND pkg /\
     Z.of_nat (length (unpackers u)) = H5Tget_nmembers eng (t_id t)).
Proof.
  split; [|split].
  - destruct (Z.eqb_spec (class t) (T_COMPOUND pkg)) as [Hcls|Hcls].
    + destruct (Z.ltb_spec (H5Tget_nmembers eng (t_id t)) 0) as [Hneg|Hpos].
      * unfold MakeUnpacker, NMembers. rewrite Hcls, Z.eqb_refl. cbn [negb].
        destruct (Z.ltb_spec (H5Tget_nmembers eng (t_id t)) 0); [|lia].
        split; [intros _; split; [reflexivity|lia] | reflexivity].
      * rewrite (MakeUnpacker_compound pkg eng t Hcls Hpos).
        split; [discriminate|lia].
    + unfold MakeUnpacker. apply Z.eqb_neq in Hcls as Hb. rewrite Hb. cbn [negb].
      split; [discriminate|intros [H _]; contradiction].
  - intros Hcls. unfold MakeUnpacker. apply Z.eqb_neq in Hcls. now rewrite Hcls.
  - intros u Hu. destruct (MakeUnpacker_Ok_inv pkg eng t u Hu) as (Hcls & Hpos & Hres).
    split; [exact Hcls|].
    destruct (resolve_slots_ok_inv pkg eng t _ 0 (unpackers u) Hres) as [Hlen _]. lia.
Qed.

(** ** MakeUnpacker and Unpack together *)

Lemma primitiveUnpacker_in_registry (pkg : Package) (eng : H5T) (t : DynDatatype)
    (f : primitiveUnpack) :
  primitiveUnpacker pkg eng t = Ok f -> In f registry.
Proof.
  unfold primitiveUnpacker, registry.
  destruct (equal eng t (T_NATIVE_LLONG pkg)); [intros [= <-]; cbn; tauto|].
  destruct (equal eng t (T_NATIVE_INT pkg)); [intros [= <-]; cbn; tauto|].
  destruct (equal eng t (T_NATIVE_FLOAT pkg)); [intros [= <-]; cbn; tauto|].
  destruct (equal eng t (T_GO_STRING pkg)); [intros [= <-]; cbn; tauto|].
  discriminate.
Qed.

Lemma registry_never_nil (f : primitiveUnpack) (m : Memory) (p : Z) :
  In f registry -> fst (f m p) <> iface_nil.
Proof.
  unfold registry. cbn [In]. intros [<-|[<-|[<-|[<-|[]]]]]; try discriminate.
  unfold stringUnpacker. destruct (load_uintptr m p =? 0); discriminate.
Qed.

(** X2.  For the [Unpacker] that [MakeUnpacker] returns for a descriptor,
    [Unpack] of any record yields one value per member of the descriptor,
    and the value of member [i] is the nil value exactly when
    [primitiveUnpacker] has no decoder for that member's type. *)
Theorem MakeUnpacker_Unpack_coverage (pkg : Package) (eng : H5T) (t : DynDatatype)
    (u : Unpacker) (m : Memory) (data : SliceHeader) :
  MakeUnpacker pkg eng t = Returns (Ok u) ->
  Z.of_nat (length (Unpack m u data)) = H5Tget_nmembers eng (t_id t) /\
  forall (i : nat) (mt : DynDatatype),
    Z.of_nat i < H5Tget_nmembers eng (t_id t) ->
    MemberType pkg eng t (Z.of_nat i) = Ok mt ->
    (Unpack m u data !! i = Some iface_nil <->
     exists e, primitiveUnpacker pkg eng mt = Err e).
Proof.
  intros Hu. destruct (MakeUnpacker_Ok_inv pkg eng t u Hu) as (Hcls & Hpos & Hres).
  destruct (resolve_slots_ok_inv pkg eng t _ 0 (unpackers u) Hres) as [Hlen Hslots].
  rewrite Unpack_walk, walk_slots_length. split; [lia|].
  intros i mt Hi Hmt.
  pose proof (Hslots i mt ltac:(lia) Hmt) as Hslot.
  rewrite (walk_slots_lookup m (unpackers u) (Data data) i _ Hslot).
  unfold member_slot, value_or_nil.
  destruct (primitiveUnpacker pkg eng mt) as [f|e] eqn:Hprim; cbn [slot_value].
  - split.
    + intros [= Hnil].
      exfalso. eapply registry_never_nil; [|exact Hnil].
      eapply primitiveUnpacker_in_registry. exact Hprim.
    + intros [e He]. discriminate.
  - split; [eauto|reflexivity].
Qed.

Lemma MakeUnpacker_Unpack_coverage_witness :
  Unpack sample_memory (mkUnpacker [Some longUnpacker; None; Some floatUnpacker])
         sample_record !! 1%nat = Some iface_nil.
Proof.
  assert (Hu : MakeUnpacker sample_pkg sample_H5T sample_compound
               = Returns (Ok (mkUnpacker [Some longUnpacker; None; Some floatUnpacker])))
    by reflexivity.
  destruct (MakeUnpacker_Unpack_coverage sample_pkg sample_H5T sample_compound _
              sample_memory sample_record Hu) as [_ Hcov].
  apply (Hcov 1%nat (NewDynDatatype sample_H5T 12)); [reflexivity|reflexivity|].
  eexists. reflexivity.
Defined.

(** ** Unpack: bytes consumed and bytes read *)

Lemma uintptr_add_step_plain (b a c : Z) :
  uintptr_add (uintptr_add b a) c = uintptr_add b (a + c).
Proof.
  unfold uintptr_add, to_uintptr, wrap_unsigned.
  rewrite Zplus_mod_idemp_l. f_equal. lia.
Qed.



Lemma cursor_after_widths (m : Memory) (slots : list (option primitiveUnpack)) :
  forall (ws : list Z) (p : Z),
    Forall2 slot_advances slots ws ->
    to_uintptr (cursor_after m p slots) = uintptr_add p (total_width ws).
Proof.
  induction slots as [|slot rest IH]; intros ws p Hws.
  - apply Forall2_nil_inv_l in Hws as ->. cbn. unfold uintptr_add. f_equal. lia.
  - apply Forall2_cons_inv_l in Hws as (w & ws' & Hw & Hrest & ->).
    cbn [total_width fold_right]. fold (total_width ws').
    destruct slot as [f|]; cbn [cursor_after slot_advances] in *.
    + rewrite (IH ws' _ Hrest), (Hw m p), uintptr_add_step_plain. reflexivity.
    + subst w. rewrite (IH ws' p Hrest). f_equal.
Qed.

Lemma cursor_after_range (m : Memory) (slots : list (option primitiveUnpack)) :
  forall (ws : list Z) (p : Z),
    Forall2 slot_advances slots ws ->
    0 <= p < 2 ^ 64 ->
    0 <= cursor_after m p slots < 2 ^ 64.
Proof.
  induction slots as [|slot rest IH]; intros ws p Hws Hp; [exact Hp|].
  apply Forall2_cons_inv_l in Hws as (w & ws' & Hw & Hrest & ->).
  destruct slot as [f|]; cbn [cursor_after slot_advances] in *.
  - apply (IH ws' _ Hrest). rewrite (Hw m p).
    unfold uintptr_add, to_uintptr, wrap_unsigned. apply Z.mod_pos_bound. lia.
  - apply (IH ws' p Hrest Hp).
Qed.

(** X3.  When every present slot of an [Unpacker] moves the cursor by a
    fixed number of bytes, [Unpack] decodes the value of a present slot at
    the start of the record plus the sum of the widths of the slots before
    it (modulo the width of a pointer); absent slots before it add
    nothing, so the members after an absent slot are decoded where the
    absent member starts. *)
Theorem Unpack_decodes_at_sum_of_widths (m : Memory) (u : Unpacker)
    (data : SliceHeader) (ws : list Z) (i : nat) (f : primitiveUnpack) :
  0 <= Data data < 2 ^ 64 ->
  Forall2 slot_advances (unpackers u) ws ->
  unpackers u !! i = Some (Some f) ->
  Unpack m u data !! i
  = Some (fst (f m (uintptr_add (Data data) (total_width (take i ws))))).
Proof.
  intros Hp Hws Hi. rewrite Unpack_walk.
  rewrite (walk_slots_lookup m (unpackers u) (Data data) i (Some f) Hi).
  cbn [slot_value]. unfold cursor_at.
  pose proof (Forall2_take _ _ _ i Hws) as Hpre.
  rewrite <- (cursor_after_widths m (take i (unpackers u)) (take i ws) (Data data) Hpre).
  do 3 f_equal. symmetry. apply Z.mod_small.
  exact (cursor_after_range m (take i (unpackers u)) (take i ws) (Data data) Hpre Hp).
Qed.

Lemma Unpack_decodes_at_sum_of_widths_witness :
  Unpack sample_memory sample_unpacker sample_record !! 2%nat
  = Some (fst (floatUnpacker sample_memory 4104)).
Proof.
  apply (Unpack_decodes_at_sum_of_widths sample_memory sample_unpacker sample_record
           [8; 0; 4] 2 floatUnpacker).
  - cbn. lia.
  - constructor; [exact longUnpacker_advance|].
    constructor; [reflexivity|].
    constructor; [exact floatUnpacker_advance|constructor].
  - reflexivity.
Defined.

Lemma same_bytes_prefix (m m' : Memory) (p : Z) (n k : nat) :
  same_bytes m m' p n -> (k <= n)%nat -> same_bytes m m' p k.
Proof. intros H Hk j Hj. apply H. lia. Qed.

Lemma same_bytes_shift (m m' : Memory) (p w : Z) (n k : nat) :
  same_bytes m m' p n -> 0 <= w -> (Z.to_nat w + k <= n)%nat ->
  same_bytes m m' (uintptr_add p w) k.
Proof.
  intros H Hw Hk j Hj.
  assert (Heq : to_uintptr (uintptr_add p w + j) = to_uintptr (p + (w + j))).
  { unfold uintptr_add, to_uintptr, wrap_unsigned.
    rewrite Zplus_mod_idemp_l. f_equal. lia. }
  rewrite Heq. apply H. lia.
Qed.

Lemma numeric_slot_nonneg (slots : list (option primitiveUnpack)) (ws : list Z) :
  Forall2 numeric_slot slots ws -> 0 <= total_width ws.
Proof.
  induction 1 as [|slot w slots ws Hw _ IH]; cbn; [lia|].
  fold (total_width ws).
  destruct Hw as [[_ ->]|[[_ ->]|[[_ ->]|[_ ->]]]]; lia.
Qed.

Lemma walk_slots_same_bytes (m m' : Memory) (slots : list (option primitiveUnpack)) :
  forall (ws : list Z) (p : Z),
    Forall2 numeric_slot slots ws ->
    same_bytes m m' p (Z.to_nat (total_width ws)) ->
    walk_slots m p slots = walk_slots m' p slots.
Proof.
  induction slots as [|slot rest IH]; intros ws p Hws Hsame; [reflexivity|].
  apply Forall2_cons_inv_l in Hws as (w & ws' & Hw & Hrest & ->).
  pose proof (numeric_slot_nonneg rest ws' Hrest) as Hnonneg.
  cbn [total_width fold_right] in Hsame. fold (total_width ws') in Hsame.
  assert (Hstep : forall (f : primitiveUnpack) (width : Z) (read : nat),
            w = width -> 0 <= width -> (read <= Z.to_nat width)%nat ->
            advances_by f width ->
            (forall q, same_bytes m m' q read -> fst (f m q) = fst (f m' q)) ->
            walk_slots m p (Some f :: rest) = walk_slots m' p (Some f :: rest)).
  { intros f width read -> Hwidth Hread Hadv Hreads.
    cbn [walk_slots]. rewrite !Hadv. f_equal.
    - apply Hreads. eapply same_bytes_prefix; [exact Hsame|lia].
    - apply (IH ws'); [exact Hrest|].
      eapply same_bytes_shift; [exact Hsame|lia|lia]. }
  destruct Hw as [[-> ->]|[[-> ->]|[[-> ->]|[-> ->]]]].
  - cbn [walk_slots]. f_equal. apply (IH ws' p Hrest).
    eapply same_bytes_prefix; [exact Hsame|lia].
  - apply (Hstep longUnpacker 8 8%nat); try reflexivity; try lia.
    + exact longUnpacker_advance.
    + intros q. apply longUnpacker_reads_8.
  - apply (Hstep integerUnpacker 8 4%nat); try reflexivity; try lia.
    + exact integerUnpacker_advance.
    + intros q. apply integerUnpacker_reads_4.
  - apply (Hstep floatUnpacker 4 4%nat); try reflexivity; try lia.
    + exact floatUnpacker_advance.
    + intros q. apply floatUnpacker_reads_4.
Qed.

(** X4.  A record made of long, int and float members (and absent slots)
    is decoded from its own bytes only: two memories that hold the same
    bytes from the start of the record over the sum of the slot widths (8
    for a long, 8 for an int, 4 for a float) decode to the same values. *)
Theorem Unpack_reads_only_the_record (m m' : Memory) (u : Unpacker)
    (data : SliceHeader) (ws : list Z) :
  Forall2 numeric_slot (unpackers u) ws ->
  same_bytes m m' (Data data) (Z.to_nat (total_width ws)) ->
  Unpack m u data = Unpack m' u data.
Proof.
  intros Hws Hsame. rewrite !Unpack_walk.
  exact (walk_slots_same_bytes m m' (unpackers u) ws (Data data) Hws Hsame).
Qed.

Lemma Unpack_reads_only_the_record_witness :
  Unpack sample_memory sample_unpacker sample_record
  = Unpack (mkMemory (fun a => if a =? 4096 then 7 else if a <? 4108 then 0 else 255)
                     (fun _ => "junk"%string))
           sample_unpacker sample_record.
Proof.
  apply (Unpack_reads_only_the_record _ _ sample_unpacker sample_record [8; 0; 4]).
  - constructor; [right; left; split; reflexivity|].
    constructor; [left; split; reflexivity|].
    constructor; [right; right; right; split; reflexivity|constructor].
  - intros k Hk. cbn in Hk. cbn [byte_at sample_memory sample_record Data].
    assert (Hrange : to_uintptr (4096 + k) = 4096 + k).
    { unfold to_uintptr, wrap_unsigned. apply Z.mod_small. lia. }
    rewrite Hrange.
    destruct (Z.eqb_spec (4096 + k) 4096); [reflexivity|].
    destruct (Z.ltb_spec (4096 + k) 4108); [reflexivity|lia].
Defined.

(** ** Members *)

Section MembersFacts.

Variable pkg : Package.
Variable eng : H5T.
Variable t : DynDatatype.

Lemma Members_loop_lookup (s : string) (k : nat) :
  forall (i : nat) (m0 : gmap string DynDatatype),
    Members_loop pkg eng t k i m0 !! s
    = match last_named pkg eng t s (seq i k) with
      | Some mt => Some mt
      | None => m0 !! s
      end.
Proof.
  induction k as [|k IH]; intros i m0; [reflexivity|].
  cbn [Members_loop seq last_named].
  destruct (MemberType pkg eng t (Z.of_nat i)) as [mt|e]; rewrite IH;
    destruct (last_named pkg eng t s (seq (S i) k)); try reflexivity.
  rewrite lookup_insert.
  destruct (String.eqb_spec (MemberName eng t (Z.of_nat i)) s) as [Heq|Hne];
    case_decide; congruence.
Qed.

Lemma Members_loop_size (k : nat) :
  forall (i : nat) (m0 : gmap string DynDatatype),
    (size (Members_loop pkg eng t k i m0) <= size m0 + k)%nat.
Proof.
  induction k as [|k IH]; intros i m0; [cbn; lia|].
  cbn [Members_loop].
  destruct (MemberType pkg eng t (Z.of_nat i)) as [mt|e].
  - etransitivity; [apply IH|]. rewrite map_size_insert.
    destruct (m0 !! MemberName eng t (Z.of_nat i)); cbn; lia.
  - etransitivity; [apply IH|]. lia.
Qed.

Lemma last_named_None (s : string) (k : nat) :
  forall i : nat,
    last_named pkg eng t s (seq i k) = None <->
    (forall j, (i <= j < i + k)%nat -> MemberName eng t (Z.of_nat j) = s ->
       exists e, MemberType pkg eng t (Z.of_nat j) = Err e).
Proof.
  induction k as [|k IH]; intros i.
  - cbn. split; [intros _ j Hj; lia|reflexivity].
  - cbn [seq last_named]. split.
    + intros H j Hj Hname.
      destruct (last_named pkg eng t s (seq (S i) k)) eqn:Hrest; [discriminate|].
      destruct (Nat.eq_dec j i) as [->|Hne].
      * destruct (MemberType pkg eng t (Z.of_nat i)) as [mt|e]; [|eauto].
        rewrite Hname, String.eqb_refl in H. discriminate.
      * apply (proj1 (IH (S i)) Hrest j); [lia|exact Hname].
    + intros H.
      rewrite (proj2 (IH (S i))) by (intros j Hj; apply H; lia).
      destruct (MemberType pkg eng t (Z.of_nat i)) as [mt|e] eqn:Hmt; [|reflexivity].
      destruct (String.eqb_spec (MemberName eng t (Z.of_nat i)) s) as [Heq|Hne];
        [|reflexivity].
      destruct (H i ltac:(lia) Heq) as [e He]. congruence.
Qed.

Lemma last_named_Some (s : string) (mt : DynDatatype) (k : nat) :
  forall i : nat,
    last_named pkg eng t s (seq i k) = Some mt <->
    exists j, (i <= j < i + k)%nat /\
      MemberName eng t (Z.of_nat j) = s /\
      MemberType pkg eng t (Z.of_nat j) = Ok mt /\
      forall j', (j < j' < i + k)%nat -> MemberName eng t (Z.of_nat j') = s ->
        exists e, MemberType pkg eng t (Z.of_nat j') = Err e.
Proof.
  induction k as [|k IH]; intros i.
  - cbn. split; [discriminate|intros (j & Hj & _); lia].
  - cbn [seq last_named]. split.
    + intros H.
      destruct (last_named pkg eng t s (seq (S i) k)) as [mt'|] eqn:Hrest.
      * injection H as ->.
        destruct (proj1 (IH (S i)) Hrest) as (j & Hj & Hname & Hmt & Hlater).
        exists j. split; [lia|]. split; [exact Hname|]. split; [exact Hmt|].
        intros j' Hj'. apply Hlater. lia.
      * destruct (MemberType pkg eng t (Z.of_nat i)) as [mt'|e] eqn:Hmt; [|discriminate].
        destruct (String.eqb_spec (MemberName eng t (Z.of_nat i)) s) as [Heq|Hne];
          [|discriminate].
        injection H as ->. exists i. split; [lia|]. split; [exact Heq|].
        split; [exact Hmt|].
        intros j' Hj'. apply (proj1 (last_named_None s k (S i)) Hrest). lia.
    + intros (j & Hj & Hname & Hmt & Hlater).
      destruct (Nat.eq_dec j i) as [->|Hne].
      * rewrite (proj2 (last_named_None s k (S i)))
          by (intros j' Hj'; apply Hlater; lia).
        now rewrite Hmt, Hname, String.eqb_refl.
      * rewrite (proj2 (IH (S i))); [reflexivity|].
        exists j. split; [lia|]. split; [exact Hname|]. split; [exact Hmt|].
        intros j' Hj'. apply Hlater. lia.
Qed.

End MembersFacts.

(** X5.  [Members] fails with the error 7303 on a descriptor that is not
    compound.  On a compound descriptor it never fails: it returns a map of
    at most as many entries as the engine counts members, in which a name
    is bound to the type of the last member of that name whose type
    resolves; members whose type does not resolve leave no entry, and of
    two resolving members of one name the later one wins. *)
Theorem Members_last_resolved_member_wins (pkg : Package) (eng : H5T) (t : DynDatatype) :
  (class t <> T_COMPOUND pkg -> Members pkg eng t = Err (dynamic_error 7303)) /\
  (class t = T_COMPOUND pkg ->
   exists m : gmap string DynDatatype,
     Members pkg eng t = Ok m /\
     Z.of_nat (size m) <= Z.max 0 (H5Tget_nmembers eng (t_id t)) /\
     forall (s : string) (mt : DynDatatype),
       m !! s = Some mt <->
       exists i : nat,
         Z.of_nat i < H5Tget_nmembers eng (t_id t) /\
         MemberName eng t (Z.of_nat i) = s /\
         MemberType pkg eng t (Z.of_nat i) = Ok mt /\
         forall j : nat,
           (i < j)%nat -> Z.of_nat j < H5Tget_nmembers eng (t_id t) ->
           MemberName eng t (Z.of_nat j) = s ->
           exists e, MemberType pkg eng t (Z.of_nat j) = Err e).
Proof.
  split.
  - intros Hcls. unfold Members. apply Z.eqb_neq in Hcls. now rewrite Hcls.
  - intros Hcls. unfold Members, NMembers. rewrite Hcls, Z.eqb_refl. cbn [negb].
    set (n := H5Tget_nmembers eng (t_id t)).
    eexists. split; [reflexivity|]. split.
    + pose proof (Members_loop_size pkg eng t (Z.to_nat n) 0 ∅) as Hsize.
      rewrite map_size_empty in Hsize. lia.
    + intros s mt. rewrite Members_loop_lookup, lookup_empty.
      destruct (last_named pkg eng t s (seq 0 (Z.to_nat n))) as [mt'|] eqn:Hlast.
      * split.
        -- intros [= <-].
           destruct (proj1 (last_named_Some pkg eng t s mt' (Z.to_nat n) 0) Hlast)
             as (j & Hj & Hname & Hmt & Hlater).
           exists j. split; [lia|]. split; [exact Hname|]. split; [exact Hmt|].
           intros j' Hlt Hj'. apply Hlater. lia.
        -- intros (i & Hi & Hname & Hmt & Hlater).
           rewrite <- Hlast.
           apply (proj2 (last_named_Some pkg eng t s mt (Z.to_nat n) 0)).
           exists i. split; [lia|]. split; [exact Hname|]. split; [exact Hmt|].
           intros j' Hj'. apply Hlater; lia.
      * split; [discriminate|].
        intros (i & Hi & Hname & Hmt & _).
        destruct (proj1 (last_named_None pkg eng t s (Z.to_nat n) 0) Hlast i
                    ltac:(lia) Hname) as [e He].
        congruence.
Qed.

(** The members 0 and 2 of the sample type are both named "x": the map
    binds "x" to the type of member 2. *)
Example Members_named_compound :
  exists m, Members sample_pkg named_H5T named_compound = Ok m /\
    m !! "x"%string = Some (NewDynDatatype named_H5T 13) /\
    m !! "y"%string = Some (NewDynDatatype named_H5T 12) /\
    size m = 2%nat.
Proof. eexists. split; [reflexivity|]. repeat split; vm_compute; reflexivity. Qed.

(** ** Member indices *)

Lemma to_c_uint_periodic (i k : Z) : to_c_uint (i + k * 2 ^ 32) = to_c_uint i.
Proof. unfold to_c_uint, wrap_unsigned. apply Z_mod_plus_full. Qed.

(** X6.  The member accessors hand the index to the engine as a C
    [unsigned]: an index is seen modulo [2^32], so an index that is
    negative or beyond [2^32] is not rejected but stands for another
    index; -1 stands for 4294967295. *)
Theorem member_index_is_taken_modulo_2_32 (pkg : Package) (eng : H5T)
    (t : DynDatatype) (i k : Z) :
  MemberType pkg eng t (i + k * 2 ^ 32) = MemberType pkg eng t i /\
  MemberName eng t (i + k * 2 ^ 32) = MemberName eng t i /\
  MemberOffset eng t (i + k * 2 ^ 32) = MemberOffset eng t i /\
  MemberType pkg eng t (-1) = MemberType pkg eng t 4294967295.
Proof.
  unfold MemberType, MemberName, MemberOffset.
  rewrite !to_c_uint_periodic. repeat split; reflexivity.
Qed.

(** ** Close and the finalizer of a datatype *)

(** X7.  [Close] calls [H5Tclose] exactly once when the handle is positive
    and not at all otherwise, and never panics.  After the call the handle
    is 0 whether or not the engine reported an error, so a second [Close],
    after a success as after a failure, returns no error and calls nothing:
    a close that failed is not tried again. *)
Theorem Close_releases_at_most_once {St : Type} (pkg : Package) (eng : Engine St)
    (t : DynDatatype) (w : World St) :
  exists (e1 : option error) (t1 : DynDatatype) (w1 : World St),
    Close pkg eng t w = (Returns (e1, t1), w1) /\
    Close pkg eng t1 w1 = (Returns (None, t1), w1) /\
    class t1 = class t /\
    (0 < t_id t ->
     t_id t1 = 0 /\
     e1 = h5err pkg (fst (H5Tclose eng (t_id t) (engine_state w))) /\
     engine_state w1 = snd (H5Tclose eng (t_id t) (engine_state w)) /\
     trace w1
     = trace w ++ [ev_H5Tclose (t_id t) (fst (H5Tclose eng (t_id t) (engine_state w)))]) /\
    (t_id t <= 0 -> e1 = None /\ t1 = t /\ w1 = w).
Proof.
  unfold Close at 1. destruct (Z.gtb_spec (t_id t) 0) as [Hpos|Hnon].
  - unfold bind, C_H5Tclose, call, ret.
    destruct (H5Tclose eng (t_id t) (engine_state w)) as [rc s'].
    eexists _, _, _. split; [reflexivity|]. split.
    + apply Close_closed. cbn. lia.
    + split; [reflexivity|]. split; [|lia].
      intros _. repeat split; reflexivity.
  - exists None, t, w. split; [reflexivity|]. split.
    + apply Close_closed. lia.
    + split; [reflexivity|]. split; [lia|]. intros _. repeat split; reflexivity.
Qed.

(** X8.  The finalizer of a datatype panics exactly when the handle is
    positive and [h5err] makes an error of the status [H5Tclose] returns;
    on a closed descriptor it never panics and calls nothing. *)
Theorem finalizer_panics_iff_close_fails {St : Type} (pkg : Package) (eng : Engine St)
    (t : DynDatatype) (w : World St) :
  (fst (finalizer pkg eng t w) = Panics <->
   0 < t_id t /\
   h5err pkg (fst (H5Tclose eng (t_id t) (engine_state w))) <> None) /\
  (t_id t <= 0 -> finalizer pkg eng t w = (Returns t, w)).
Proof.
  unfold finalizer, bind, Close.
  destruct (Z.gtb_spec (t_id t) 0) as [Hpos|Hnon].
  - unfold bind, C_H5Tclose, call, ret, panic.
    destruct (H5Tclose eng (t_id t) (engine_state w)) as [rc s']. cbn [fst snd].
    split; [|lia].
    destruct (h5err pkg rc) as [e|]; cbn [fst].
    + split; [intros _; split; [lia|discriminate]|reflexivity].
    + split; [discriminate|intros [_ H]; contradiction].
  - unfold ret. cbn [fst snd]. split; [|reflexivity].
    split; [discriminate|intros [H _]; lia].
Qed.

(** ** Read: what it touches, what its views are *)

Section ReadFrame.

Context {St : Type}.
Variable pkg : Package.
Variable eng : Engine St.

(** Every way [Read] can end. *)
Lemma Read_cases (rdr : TableReader) (num : Z) (w : World St) :
  Read pkg eng rdr num w = (Panics, w) \/
  Read pkg eng rdr num w = (Returns (([], None), rdr), w) \/
  exists n rc s',
    n <> 0 /\
    H5PTget_next eng (id (Table_Location (source rdr))) (to_size_t n)
                 (buffer rdr) (engine_state w) = (rc, s') /\
    (Read pkg eng rdr num w = (Panics, after_get_next rdr (to_size_t n) rc s' w) \/
     (rc < 0 /\
      Read pkg eng rdr num w
      = (Returns (([], h5err pkg rc), rdr), after_get_next rdr (to_size_t n) rc s' w)) \/
     (0 <= rc /\ 0 < n /\
      Read pkg eng rdr num w
      = (Returns ((packet_views (buffer rdr) (bytesPerRecord rdr) (Z.to_nat n), None),
                  set_remain rdr (int_sub (remain rdr) n)),
         after_get_next rdr (to_size_t n) rc s' w))).
Proof.
  destruct (if int_mul num (bytesPerRecord rdr) >? bufferCap rdr
            then if bytesPerRecord rdr =? 0 then None
                 else Some (int_div (bufferCap rdr) (bytesPerRecord rdr))
            else Some num) as [n1|] eqn:Hn1.
  - rewrite (Read_unfold pkg eng rdr num n1 _ w Hn1 eq_refl).
    set (n := if n1 >? remain rdr then wrap_int (remain rdr) else n1).
    destruct (Z.eqb_spec n 0) as [H0|Hne]; [right; left; reflexivity|].
    right. right.
    destruct (H5PTget_next eng (id (Table_Location (source rdr))) (to_size_t n)
                           (buffer rdr) (engine_state w)) as [rc s'] eqn:Hcall.
    exists n, rc, s'. split; [exact Hne|]. split; [exact Hcall|]. cbn [fst snd].
    destruct (Z.ltb_spec rc 0) as [Hrc|Hrc]; [right; left; split; [lia|reflexivity]|].
    destruct (Z.ltb_spec n 0) as [Hn|Hn]; [left; reflexivity|].
    right. right. split; [lia|]. split; [lia|reflexivity].
  - left. unfold Read, bind.
    destruct (int_mul num (bytesPerRecord rdr) >? bufferCap rdr); [|discriminate].
    destruct (bytesPerRecord rdr =? 0); [reflexivity|discriminate].
Qed.

End ReadFrame.

(** X9.  Whatever is requested and whatever the engine does, a [Read] that
    returns leaves the table, the record width, the buffer address and the
    buffer capacity of the reader as they were, and it makes no engine call
    or exactly one, a [H5PTget_next] on the reader's table and buffer; it
    never allocates and never frees. *)
Theorem Read_changes_only_remain {St : Type} (pkg : Package) (eng : Engine St)
    (rdr rdr' : TableReader) (num : Z) (w w' : World St)
    (res : list DynPacket * option error) :
  Read pkg eng rdr num w = (Returns (res, rdr'), w') ->
  source rdr' = source rdr /\
  bytesPerRecord rdr' = bytesPerRecord rdr /\
  buffer rdr' = buffer rdr /\
  bufferCap rdr' = bufferCap rdr /\
  (w' = w /\ rdr' = rdr /\ res = ([], None) \/
   exists n rc,
     trace w'
     = trace w ++ [ev_H5PTget_next (id (Table_Location (source rdr))) n (buffer rdr) rc]).
Proof.
  intros HRead.
  destruct (Read_cases pkg eng rdr num w)
    as [H|[H|(n & rc & s' & Hne & Hcall & [H|[[Hrc H]|(Hrc & Hn & H)]])]];
    rewrite H in HRead; try discriminate; injection HRead as <- <- <-.
  - repeat split; try reflexivity. left. repeat split; reflexivity.
  - repeat split; try reflexivity. right. now exists (to_size_t n), rc.
  - repeat split; try reflexivity. right. now exists (to_size_t n), rc.
Qed.

Lemma Read_changes_only_remain_witness :
  buffer (made_reader sample_table 4096 3) = 4096 /\
  bufferCap (made_reader sample_table 4096 3) = 1000000.
Proof.
  assert (HRead : Read sample_pkg sim_engine sample_reader 2 (sim_world false 5)
                  = (Returns ((packet_views 4096 32 2, None),
                              made_reader sample_table 4096 3),
                     mkWorld (mkSim [5] false 5 2 4096) [ev_H5PTget_next 9 2 4096 0]))
    by reflexivity.
  destruct (Read_changes_only_remain sample_pkg sim_engine _ _ _ _ _ _ HRead)
    as (_ & _ & Hbuf & Hcap & _).
  split; [exact Hbuf | exact Hcap].
Defined.

(** X10.  A reader with no record left is stuck there: every request that
    is not negative, however large, comes back empty and without error,
    and neither the reader nor the engine is touched. *)
Theorem Read_exhausted_stays_exhausted {St : Type} (pkg : Package) (eng : Engine St)
    (rdr : TableReader) (num : Z) (w : World St) :
  reader_ok rdr ->
  remain rdr = 0 ->
  0 <= num ->
  Read pkg eng rdr num w = (Returns (([], None), rdr), w).
Proof.
  intros (Hper & Hcap & Hrem) H0 Hnum.
  assert (Hq : 0 <= int_div (bufferCap rdr) (bytesPerRecord rdr)).
  { unfold int_div. rewrite Z.quot_div_nonneg by lia.
    assert (0 <= bufferCap rdr / bytesPerRecord rdr <= bufferCap rdr).
    { split; [apply Z.div_pos; lia|]. apply Z.div_le_upper_bound; nia. }
    rewrite wrap_int_id by (unfold min_int; lia). lia. }
  assert (Hn1 : exists n1, 0 <= n1 /\
            (if int_mul num (bytesPerRecord rdr) >? bufferCap rdr
             then if bytesPerRecord rdr =? 0 then None
                  else Some (int_div (bufferCap rdr) (bytesPerRecord rdr))
             else Some num) = Some n1).
  { destruct (int_mul num (bytesPerRecord rdr) >? bufferCap rdr).
    - destruct (Z.eqb_spec (bytesPerRecord rdr) 0); [lia|eauto].
    - eauto. }
  destruct Hn1 as (n1 & Hn1pos & Hn1).
  rewrite (Read_unfold pkg eng rdr num n1 0 w Hn1); [reflexivity|].
  rewrite H0. destruct (Z.gtb_spec n1 0); [reflexivity|lia].
Qed.

Lemma Read_exhausted_stays_exhausted_witness :
  Read sample_pkg sim_engine (made_reader sample_table 4096 0) max_int
       (sim_world false 5)
  = (Returns (([], None), made_reader sample_table 4096 0), sim_world false 5).
Proof.
  apply Read_exhausted_stays_exhausted.
  - apply made_reader_ok. unfold max_int. lia.
  - reflexivity.
  - unfold max_int. lia.
Defined.

Lemma Read_views_shape {St : Type} (pkg : Package) (eng : Engine St)
    (rdr rdr' : TableReader) (num : Z) (w w' : World St)
    (vec : list DynPacket) (e : option error) :
  Read pkg eng rdr num w = (Returns ((vec, e), rdr'), w') ->
  vec = packet_views (buffer rdr) (bytesPerRecord rdr) (length vec).
Proof.
  intros HRead.
  destruct (Read_cases pkg eng rdr num w)
    as [H|[H|(n & rc & s' & Hne & Hcall & [H|[[Hrc H]|(Hrc & Hn & H)]])]];
    rewrite H in HRead; try discriminate; injection HRead as <- <- <- <-;
    try reflexivity.
  now rewrite packet_views_length.
Qed.

(** X11.  The views of two pulls from one reader are the same slices of the
    same buffer: view [i] of a later [Read] has the address, length and
    capacity of view [i] of an earlier one, whatever was requested and
    whatever the engine did in between. *)
Theorem Read_views_alias_the_buffer {St : Type} (pkg : Package) (eng : Engine St)
    (rdr rdr1 rdr2 : TableReader) (num1 num2 : Z) (w w1 w2 w3 : World St)
    (vec1 vec2 : list DynPacket) (e1 e2 : option error)
    (i : nat) (a b : DynPacket) :
  Read pkg eng rdr num1 w = (Returns ((vec1, e1), rdr1), w1) ->
  Read pkg eng rdr1 num2 w2 = (Returns ((vec2, e2), rdr2), w3) ->
  vec1 !! i = Some a ->
  vec2 !! i = Some b ->
  a = b.
Proof.
  intros H1 H2 Ha Hb.
  destruct (Read_changes_only_remain pkg eng _ _ _ _ _ _ H1) as (_ & Hper & Hbuf & _).
  pose proof (Read_views_shape pkg eng _ _ _ _ _ _ _ H1) as Hv1.
  pose proof (Read_views_shape pkg eng _ _ _ _ _ _ _ H2) as Hv2.
  rewrite Hper, Hbuf in Hv2.
  pose proof (lookup_lt_Some _ _ _ Ha) as Hi1.
  pose proof (lookup_lt_Some _ _ _ Hb) as Hi2.
  rewrite Hv1, packet_views_lookup in Ha by exact Hi1.
  rewrite Hv2, packet_views_lookup in Hb by exact Hi2.
  congruence.
Qed.

Lemma Read_views_alias_the_buffer_witness :
  mkDynPacket (mkSliceHeader 4128 32 32) = mkDynPacket (mkSliceHeader 4128 32 32).
Proof.
  apply (Read_views_alias_the_buffer sample_pkg sim_engine
           sample_reader (made_reader sample_table 4096 3)
           (made_reader sample_table 4096 0) 2 5
           (sim_world false 5)
           (mkWorld (mkSim [5] false 5 2 4096) [ev_H5PTget_next 9 2 4096 0])
           (mkWorld (mkSim [5] false 5 2 4096) [ev_H5PTget_next 9 2 4096 0])
           (mkWorld (mkSim [5] false 5 5 4096)
                    [ev_H5PTget_next 9 2 4096 0; ev_H5PTget_next 9 3 4096 0])
           (packet_views 4096 32 2) (packet_views 4096 32 3) None None 1);
    reflexivity.
Defined.

Section ReadInRange.

Context {St : Type}.
Variable pkg : Package.
Variable eng : Engine St.

(** The two ways a [Read] in range returns. *)
Lemma Read_in_range_inv (rdr rdr' : TableReader) (num : Z) (w w' : World St)
    (vec : list DynPacket) (e : option error) :
  reader_ok rdr ->
  0 <= num ->
  num * bytesPerRecord rdr <= max_int ->
  Read pkg eng rdr num w = (Returns ((vec, e), rdr'), w') ->
  (vec = [] /\ rdr' = rdr) \/
  (e = None /\ 0 < clamp rdr num /\
   vec = packet_views (buffer rdr) (bytesPerRecord rdr) (Z.to_nat (clamp rdr num)) /\
   rdr' = set_remain rdr (remain rdr - clamp rdr num)).
Proof.
  intros Hok Hnum Hbytes HRead.
  destruct (Read_count_in_range rdr num Hok Hnum Hbytes) as (n1 & Hn1 & Hn).
  destruct (clamp_range rdr num Hok Hnum) as (Hlo & Hrem & Hhi).
  destruct Hok as (Hper & Hcap & Hremain).
  rewrite (Read_unfold pkg eng rdr num n1 (clamp rdr num) w Hn1 Hn) in HRead.
  destruct (Z.eqb_spec (clamp rdr num) 0) as [H0|Hne].
  - injection HRead as <- <- <- <-. now left.
  - cbn zeta in HRead.
    destruct (fst (H5PTget_next eng (id (Table_Location (source rdr)))
                     (to_size_t (clamp rdr num)) (buffer rdr) (engine_state w)) <? 0).
    + injection HRead as <- <- <- <-. now left.
    + destruct (Z.ltb_spec (clamp rdr num) 0); [lia|].
      injection HRead as <- <- <- <-. right.
      split; [reflexivity|]. split; [lia|]. split; [reflexivity|].
      unfold int_sub. now rewrite wrap_int_id by (unfold min_int; lia).
Qed.

End ReadInRange.

(** X12.  For a request in range, the views [Read] returns lie inside the
    buffer: when the buffer occupies the addresses from [buffer] up to
    [buffer + bufferCap], view [i] starts at [buffer + i * bytesPerRecord]
    without wrapping, is [bytesPerRecord] bytes long, ends where view
    [i + 1] starts and does not reach beyond the end of the buffer. *)
Theorem Read_views_inside_buffer {St : Type} (pkg : Package) (eng : Engine St)
    (rdr rdr' : TableReader) (num : Z) (w w' : World St)
    (vec : list DynPacket) (e : option error) (i : nat) (v : DynPacket) :
  reader_ok rdr ->
  0 <= num ->
  num * bytesPerRecord rdr <= max_int ->
  0 <= buffer rdr ->
  buffer rdr + bufferCap rdr <= 2 ^ 64 ->
  Read pkg eng rdr num w = (Returns ((vec, e), rdr'), w') ->
  vec !! i = Some v ->
  Data (DynPacket_Data v) = buffer rdr + Z.of_nat i * bytesPerRecord rdr /\
  Len (DynPacket_Data v) = bytesPerRecord rdr /\
  Cap (DynPacket_Data v) = bytesPerRecord rdr /\
  buffer rdr <= Data (DynPacket_Data v) /\
  Data (DynPacket_Data v) + Len (DynPacket_Data v) <= buffer rdr + bufferCap rdr.
Proof.
  intros Hok Hnum Hbytes Hbuf Hend HRead Hv.
  destruct (Read_in_range_inv pkg eng _ _ _ _ _ _ _ Hok Hnum Hbytes HRead)
    as [[-> _]|(_ & Hpos & -> & _)]; [discriminate|].
  pose proof (lookup_lt_Some _ _ _ Hv) as Hi. rewrite packet_views_length in Hi.
  rewrite packet_views_lookup in Hv by exact Hi. injection Hv as <-.
  cbn [DynPacket_Data Data Len Cap].
  destruct Hok as (Hper & Hcap & Hrem).
  assert (Hclamp : clamp rdr num <= bufferCap rdr / bytesPerRecord rdr)
    by (unfold clamp, records_per_buffer; lia).
  assert (Hfit : bufferCap rdr / bytesPerRecord rdr * bytesPerRecord rdr <= bufferCap rdr).
  { pose proof (Z.div_mod (bufferCap rdr) (bytesPerRecord rdr) ltac:(lia)) as Hdm.
    pose proof (Z.mod_pos_bound (bufferCap rdr) (bytesPerRecord rdr) ltac:(lia)).
    nia. }
  assert (Hin : (Z.of_nat i + 1) * bytesPerRecord rdr <= bufferCap rdr) by nia.
  assert (Haddr : uintptr_add (buffer rdr) (Z.of_nat i * bytesPerRecord rdr)
                  = buffer rdr + Z.of_nat i * bytesPerRecord rdr).
  { unfold uintptr_add, to_uintptr, wrap_unsigned. apply Z.mod_small. nia. }
  rewrite Haddr. repeat split; try reflexivity; nia.
Qed.

Lemma Read_views_inside_buffer_witness :
  Data (mkSliceHeader 4128 32 32) = 4096 + Z.of_nat 1 * 32 /\
  Data (mkSliceHeader 4128 32 32) + Len (mkSliceHeader 4128 32 32) <= 4096 + 1000000.
Proof.
  destruct (Read_views_inside_buffer sample_pkg sim_engine
              sample_reader (made_reader sample_table 4096 3) 2
              (sim_world false 5)
              (mkWorld (mkSim [5] false 5 2 4096) [ev_H5PTget_next 9 2 4096 0])
              (packet_views 4096 32 2) None 1
              (mkDynPacket (mkSliceHeader 4128 32 32)))
    as (Hdata & _ & _ & _ & Hend).
  - apply made_reader_ok. unfold max_int. lia.
  - lia.
  - unfold max_int. cbn. lia.
  - cbn. lia.
  - cbn. lia.
  - reflexivity.
  - reflexivity.
  - split; [exact Hdata | exact Hend].
Defined.

(** X13.  A [Read] in range keeps the books: the records left afterwards
    and the views returned add up to the records left before, the reader
    still has a count that is not negative, no more views are returned
    than were requested or than fit the buffer, and a result that carries
    an error carries no view. *)
Theorem Read_conserves_records {St : Type} (pkg : Package) (eng : Engine St)
    (rdr rdr' : TableReader) (num : Z) (w w' : World St)
    (vec : list DynPacket) (e : option error) :
  reader_ok rdr ->
  0 <= num ->
  num * bytesPerRecord rdr <= max_int ->
  Read pkg eng rdr num w = (Returns ((vec, e), rdr'), w') ->
  reader_ok rdr' /\
  remain rdr' + Z.of_nat (length vec) = remain rdr /\
  Z.of_nat (length vec) <= num /\
  Z.of_nat (length vec) <= records_per_buffer rdr /\
  (e <> None -> vec = []).
Proof.
  intros Hok Hnum Hbytes HRead.
  destruct (clamp_range rdr num Hok Hnum) as (Hlo & Hrem & Hhi).
  assert (Hk : 0 <= records_per_buffer rdr).
  { destruct Hok as (Hper & Hcap & _). unfold records_per_buffer.
    apply Z.div_pos; lia. }
  destruct (Read_in_range_inv pkg eng _ _ _ _ _ _ _ Hok Hnum Hbytes HRead)
    as [[-> ->]|(-> & Hpos & -> & ->)].
  - cbn [length]. repeat split; try exact Hok; try lia.
    all: destruct Hok as (Hper & Hcap & Hremain); lia.
  - rewrite packet_views_length.
    destruct Hok as (Hper & Hcap & Hremain).
    unfold reader_ok. cbn [bytesPerRecord bufferCap remain set_remain].
    unfold clamp in *. repeat split; try lia. intros H. contradiction.
Qed.

Lemma Read_conserves_records_witness :
  remain (made_reader sample_table 4096 3) + Z.of_nat (length (packet_views 4096 32 2))
  = remain sample_reader.
Proof.
  destruct (Read_conserves_records sample_pkg sim_engine
              sample_reader (made_reader sample_table 4096 3) 2
              (sim_world false 5)
              (mkWorld (mkSim [5] false 5 2 4096) [ev_H5PTget_next 9 2 4096 0])
              (packet_views 4096 32 2) None)
    as (_ & Hsum & _).
  - apply made_reader_ok. unfold max_int. lia.
  - lia.
  - unfold max_int. cbn. lia.
  - reflexivity.
  - exact Hsum.
Defined.

(** ** The stream of a made reader *)

(** X14.  For a reader made by [MakeTableReader] over [total] records, an
    engine whose retrievals succeed and a request of at least 31250 records
    whose byte size is a Go [int], the pull loop yields [ceil(total/31250)]
    pulls that are not empty, none larger than the one before, then the
    empty pull, and [total] records in all. *)
Theorem made_reader_stream_exhaustion {St : Type} (pkg : Package) (eng : Engine St)
    (t : Table) (buf total num : Z) (fuel : nat) (w : World St) :
  (forall i n b s, 0 <= fst (H5PTget_next eng i n b s)) ->
  0 <= total <= max_int ->
  31250 <= num ->
  num * 32 <= max_int ->
  (Z.to_nat (total / 31250) + 2 <= fuel)%nat ->
  pulls pkg eng fuel (made_reader t buf total) num w
  = nonempty_pulls total 31250 ++ [0] /\
  Forall (fun size => 0 < size) (nonempty_pulls total 31250) /\
  Z.of_nat (length (nonempty_pulls total 31250)) = ceil_div total 31250 /\
  non_increasing (nonempty_pulls total 31250) /\
  total_records (pulls pkg eng fuel (made_reader t buf total) num w) = total.
Proof. exact (stream_exhaustion_in_range pkg eng t buf total num fuel w). Qed.

Lemma made_reader_stream_exhaustion_witness :
  pulls sample_pkg steady_engine 2 (made_reader sample_table 4096 7) 40000 steady_world
  = nonempty_pulls 7 31250 ++ [0].
Proof.
  apply (made_reader_stream_exhaustion sample_pkg steady_engine sample_table 4096 7
           40000 2 steady_world).
  - intros i n b s. cbn. lia.
  - unfold max_int. lia.
  - lia.
  - unfold max_int. lia.
  - vm_compute. lia.
Defined.

(** ** MakeTableReader and the finalizer of a reader *)

(** X15.  [MakeTableReader] never panics and allocates only when it
    succeeds.  When it returns a reader there is no error, the engine was
    asked for the index, then for the count, then [malloc] for 1000000
    bytes, in this order, and the reader has the width 32, the capacity
    1000000, the address [malloc] returned (unchecked) and the count as
    its records left; when it returns no reader, no [malloc] was made. *)
Theorem MakeTableReader_allocates_on_success_only {St : Type} (pkg : Package)
    (eng : Engine St) (t : Table) (w : World St) :
  exists (r : option TableReader) (err : option error) (w' : World St),
    MakeTableReader pkg eng t w = (Returns (r, err), w') /\
    match r with
    | Some rdr =>
        err = None /\
        exists buf rc total,
          0 <= rc /\
          rdr = made_reader t buf total /\
          (0 <= total <= max_int -> remain rdr = total /\ reader_ok rdr) /\
          trace w'
          = trace w ++ [ev_CreateIndex (id (Table_Location t)) None;
                        ev_H5PTget_num_packets (id (Table_Location t)) rc total;
                        ev_malloc 1000000 buf]
    | None =>
        exists evs, trace w' = trace w ++ evs /\ existsb is_malloc evs = false
    end.
Proof.
  unfold MakeTableReader, bind, Table_CreateIndex, C_H5PTget_num_packets, C_malloc,
    call, ret.
  destruct (CreateIndex eng t (engine_state w)) as [[e|] s1].
  - eexists None, _, _. split; [reflexivity|]. cbn [trace].
    eexists. split; reflexivity.
  - cbn [engine_state trace].
    destruct (H5PTget_num_packets eng (id (Table_Location t)) s1) as [[rc total] s2].
    cbn [fst snd engine_state trace].
    destruct (Z.ltb_spec rc 0) as [Hrc|Hrc].
    + eexists None, _, _. split; [reflexivity|]. cbn [trace].
      eexists. split; [now rewrite <- app_assoc|reflexivity].
    + cbn [engine_state trace].
      destruct (malloc eng (to_size_t 1000000) s2) as [buf s3].
      eexists (Some _), None, _. split; [reflexivity|]. split; [reflexivity|].
      exists buf, rc, total. split; [exact Hrc|]. split; [reflexivity|]. split.
      * intros Htotal. split; [|now apply made_reader_ok].
        cbn. apply wrap_int_id. unfold min_int. lia.
      * cbn [trace]. now rewrite <- !app_assoc.
Qed.

Example MakeTableReader_failing_count :
  MakeTableReader sample_pkg
    (mkEngine nat (malloc steady_engine) (free steady_engine) (H5Tclose steady_engine)
              (CreateIndex steady_engine) (fun i s => ((-1, 0), S s))
              (H5PTget_next steady_engine) (H5PTread_packets steady_engine))
    sample_table steady_world
  = (Returns (None, Some (h5error (-1))),
     mkWorld 2%nat [ev_CreateIndex 9 None; ev_H5PTget_num_packets 9 (-1) 0]).
Proof. reflexivity. Qed.

(** X16.  The finalizer of a reader frees the address [malloc] returned
    when the reader was made, whatever was read in between; nothing marks
    the buffer as freed, so running the finalizer a second time frees the
    same address again. *)
Theorem TableReader_finalizer_frees_the_made_buffer {St : Type} (pkg : Package)
    (eng : Engine St) (t : Table) (w w1 w2 w3 w4 : World St)
    (rdr rdr' : TableReader) (err : option error) (num : Z)
    (res : list DynPacket * option error) :
  MakeTableReader pkg eng t w = (Returns (Some rdr, err), w1) ->
  Read pkg eng rdr num w2 = (Returns (res, rdr'), w3) ->
  exists buf,
    last (trace w1) = Some (ev_malloc 1000000 buf) /\
    fst (TableReader_finalizer eng rdr' w4) = Returns tt /\
    trace (snd (TableReader_finalizer eng rdr' w4)) = trace w4 ++ [ev_free buf] /\
    trace (snd (TableReader_finalizer eng rdr' (snd (TableReader_finalizer eng rdr' w4))))
    = trace w4 ++ [ev_free buf; ev_free buf].
Proof.
  intros Hmake HRead.
  destruct (MakeTableReader_allocates_on_success_only pkg eng t w)
    as (r & err' & w' & Hmake' & Hr).
  rewrite Hmake in Hmake'. injection Hmake' as <- <- <-.
  destruct Hr as (_ & buf & rc & total & _ & -> & _ & Htrace).
  destruct (Read_changes_only_remain pkg eng _ _ _ _ _ _ HRead) as (_ & _ & Hbuf & _).
  exists buf. split; [rewrite Htrace; now rewrite last_app|].
  unfold TableReader_finalizer, C_free, call. rewrite Hbuf. cbn.
  split; [reflexivity|]. split; [reflexivity|]. now rewrite <- app_assoc.
Qed.

Lemma TableReader_finalizer_frees_the_made_buffer_witness :
  exists buf,
    last (trace (made_world 5)) = Some (ev_malloc 1000000 buf) /\
    trace (snd (TableReader_finalizer sim_engine (made_reader sample_table 4096 3)
                  (sim_world false 5)))
    = [ev_free buf].
Proof.
  destruct (TableReader_finalizer_frees_the_made_buffer sample_pkg sim_engine
              sample_table (sim_world false 5) (made_world 5) (sim_world false 5)
              (mkWorld (mkSim [5] false 5 2 4096) [ev_H5PTget_next 9 2 4096 0])
              (sim_world false 5)
              sample_reader (made_reader sample_table 4096 3) None 2
              (packet_views 4096 32 2, None) eq_refl eq_refl)
    as (buf & Hlast & _ & Hfree & _).
  exists buf. split; [exact Hlast | exact Hfree].
Defined.

(** ** ReadPacketBytes beyond its buffer *)

Section ReadPacketBytesFacts.

Context {St : Type}.
Variable eng : Engine St.

(** [ReadPacketBytes] when the engine succeeds. *)
Lemma ReadPacketBytes_success (t : Table) (start count : Z) (w : World St)
    (buf rc : Z) (s1 s2 : St) :
  malloc eng 1000000 (engine_state w) = (buf, s1) ->
  H5PTread_packets eng (id (Table_Location t)) (to_hsize_t start) (to_size_t count)
                   buf s1 = (rc, s2) ->
  0 <= rc ->
  ReadPacketBytes eng t start count w
  = ((if (int_mul count 24 <? 0) || (int_mul count 24 >? 2 ^ 30) then Panics
      else Returns (mkSliceHeader buf (int_mul count 24) (int_mul count 24))),
     mkWorld s2 (trace w ++ [ev_malloc 1000000 buf;
                             ev_H5PTread_packets (id (Table_Location t))
                               (to_hsize_t start) (to_size_t count) buf rc])).
Proof.
  intros Hm Hr Hrc.
  unfold ReadPacketBytes, bind, C_malloc, C_H5PTread_packets, C_free, call, ret, panic.
  rewrite Hm. cbn [engine_state trace]. rewrite Hr.
  destruct (Z.ltb_spec rc 0); [lia|].
  rewrite <- !app_assoc. cbn [app].
  destruct ((int_mul count 24 <? 0) || (int_mul count 24 >? 2 ^ 30)); reflexivity.
Qed.

End ReadPacketBytesFacts.

(** X17.  [ReadPacketBytes] does not compare the bytes it returns with the
    bytes it allocated: for a count between 41667 and 44739242 records
    that the engine accepts, it returns a region that starts at the block
    of 1000000 bytes it got from [malloc] and is [24 * count] bytes long,
    longer than that block. *)
Theorem ReadPacketBytes_region_exceeds_allocation {St : Type} (eng : Engine St)
    (t : Table) (start count : Z) (w : World St) (buf rc : Z) (s1 s2 : St) :
  1000000 < 24 * count <= 2 ^ 30 ->
  malloc eng 1000000 (engine_state w) = (buf, s1) ->
  H5PTread_packets eng (id (Table_Location t)) (to_hsize_t start) count buf s1
  = (rc, s2) ->
  0 <= rc ->
  exists (region : SliceHeader) (w' : World St),
    ReadPacketBytes eng t start count w = (Returns region, w') /\
    trace w' = trace w ++ [ev_malloc 1000000 buf;
                           ev_H5PTread_packets (id (Table_Location t))
                             (to_hsize_t start) count buf rc] /\
    Data region = buf /\
    Len region = 24 * count /\
    1000000 < Len region.
Proof.
  intros Hcount Hm Hr Hrc.
  assert (Hsize : to_size_t count = count).
  { unfold to_size_t, wrap_unsigned. apply Z.mod_small. lia. }
  assert (Hmul : int_mul count 24 = 24 * count).
  { unfold int_mul. rewrite wrap_int_id; [lia|]. unfold min_int, max_int. lia. }
  rewrite <- Hsize in Hr.
  rewrite (ReadPacketBytes_success eng t start count w buf rc s1 s2 Hm Hr Hrc).
  rewrite Hmul, Hsize.
  destruct (Z.ltb_spec (24 * count) 0); [lia|].
  destruct (Z.gtb_spec (24 * count) (2 ^ 30)); [lia|].
  cbn [orb]. eexists _, _. split; [reflexivity|]. cbn. repeat split; lia.
Qed.

Lemma ReadPacketBytes_region_exceeds_allocation_witness :
  exists (region : SliceHeader) (w' : World sim),
    ReadPacketBytes sim_engine sample_table 0 50000 (sim_world false 5)
    = (Returns region, w') /\
    Len region = 1200000.
Proof.
  destruct (ReadPacketBytes_region_exceeds_allocation sim_engine sample_table 0 50000
              (sim_world false 5) 4096 0
              (mkSim [5] false 5 0 1004096) (mkSim [5] false 5 0 1004096)
              ltac:(lia) eq_refl eq_refl ltac:(lia))
    as (region & w' & HRead & _ & _ & Hlen & _).
  exists region, w'. split; [exact HRead | exact Hlen].
Defined.

(** X18.  When the engine accepts a count that is negative, or one whose
    [24 * count] bytes exceed [1<<30], [ReadPacketBytes] panics in the
    slice expression after it has allocated its buffer: the buffer is
    neither returned nor freed. *)
Theorem ReadPacketBytes_panic_leaks_the_buffer {St : Type} (eng : Engine St)
    (t : Table) (start count : Z) (w : World St) (buf rc : Z) (s1 s2 : St) :
  - 2 ^ 58 <= count < 0 \/ 2 ^ 30 < 24 * count <= max_int ->
  malloc eng 1000000 (engine_state w) = (buf, s1) ->
  H5PTread_packets eng (id (Table_Location t)) (to_hsize_t start) (to_size_t count)
                   buf s1 = (rc, s2) ->
  0 <= rc ->
  exists w' : World St,
    ReadPacketBytes eng t start count w = (Panics, w') /\
    trace w' = trace w ++ [ev_malloc 1000000 buf;
                           ev_H5PTread_packets (id (Table_Location t))
                             (to_hsize_t start) (to_size_t count) buf rc] /\
    existsb is_free (trace w') = existsb is_free (trace w).
Proof.
  intros Hcount Hm Hr Hrc.
  assert (Hmul : int_mul count 24 = 24 * count).
  { unfold int_mul. rewrite wrap_int_id; [lia|]. unfold min_int, max_int in *. lia. }
  rewrite (ReadPacketBytes_success eng t start count w buf rc s1 s2 Hm Hr Hrc).
  rewrite Hmul.
  assert (Hpanic : (24 * count <? 0) || (24 * count >? 2 ^ 30) = true).
  { destruct (Z.ltb_spec (24 * count) 0); [reflexivity|].
    destruct (Z.gtb_spec (24 * count) (2 ^ 30)); [reflexivity|lia]. }
  rewrite Hpanic. eexists. split; [reflexivity|]. cbn [trace].
  split; [reflexivity|].
  rewrite existsb_app. cbn. now rewrite orb_false_r.
Qed.

Lemma ReadPacketBytes_panic_leaks_the_buffer_witness :
  exists w' : World sim,
    ReadPacketBytes sim_engine sample_table 0 (-1) (sim_world false 5) = (Panics, w') /\
    existsb is_free (trace w') = false.
Proof.
  destruct (ReadPacketBytes_panic_leaks_the_buffer sim_engine sample_table 0 (-1)
              (sim_world false 5) 4096 0
              (mkSim [5] false 5 0 1004096) (mkSim [5] false 5 0 1004096)
              ltac:(left; lia) eq_refl eq_refl ltac:(lia))
    as (w' & HRead & _ & Hfree).
  exists w'. split; [exact HRead | exact Hfree].
Defined.
